(** * Intervals.icu MCP tools: response shaping and derived metrics

    A shallow embedding of the tool functions of [intervals_icu_mcp/tools]
    (athlete, curves, performance, activity_analysis, activities, wellness,
    gear) together with the properties their specification states.

    Conventions of the embedding:
    - a Python [dict] with string keys is a [gmap string pyval]; only key
      presence and the stored values are observed, never iteration order;
    - Python numbers are [Z] (int) and [Q] (float).  Every finite float is a
      rational, and comparisons between numbers are exact in Python.  A
      product, difference or quotient of floats is the exact result rounded
      to the nearest binary64 number ([round_float]), as the machine
      computes it; overflow to infinity is not modelled;
    - [None]-able attributes are [option]s, and Python truthiness is spelled
      out ([None], [0], [0.0] and the empty string are falsy);
    - a tool is a computation in a small monad that records the API client
      being constructed, the requests sent, and a raised exception. *)

From Stdlib Require Import QArith Qround Qabs Qpower Lqa Ascii.
From stdpp Require Import gmap strings list fin_maps pretty sorting.

Set Warnings "-register-all,-clear-no-such-hyp".
#[local] Open Scope Z_scope.

(* ===================================================================== *)
(** * Python values *)
(* ===================================================================== *)

Inductive pyval :=
| VNone
| VBool (b : bool)
| VInt (z : Z)
| VNum (q : Q)
| VStr (s : string)
| VList (l : list pyval)
| VDict (d : gmap string pyval).

Abbreviation dict := (gmap string pyval).

(** [x > y] and [x < y] on numbers. *)
Definition Qgtb (x y : Q) : bool := negb (Qle_bool x y).
Definition Qltb (x y : Q) : bool := negb (Qle_bool y x).

(** Truthiness of optional attributes ([if record.field:]). *)
Definition truthy_num (x : option Q) : bool :=
  match x with Some q => negb (Qeq_bool q 0) | None => false end.
Definition truthy_int (x : option Z) : bool :=
  match x with Some z => negb (z =? 0) | None => false end.
Definition truthy_str (x : option string) : bool :=
  match x with Some s => negb (String.eqb s "") | None => false end.

(** [x if x is not None else None] rendered as a value. *)
Definition of_opt {A} (f : A → pyval) (x : option A) : pyval :=
  match x with Some a => f a | None => VNone end.

(** [if cond: d[k] = v]. *)
Definition set_if (cond : bool) (k : string) (v : pyval) (d : dict) : dict :=
  if cond then <[k := v]> d else d.

(** [if x is not None: d[k] = f(x)]. *)
Definition set_some {A} (x : option A) (k : string) (f : A → pyval) (d : dict) : dict :=
  match x with Some a => <[k := f a]> d | None => d end.

(** [not d] for a dict: it has no key. *)
Definition dict_empty (d : dict) : bool := (size d =? 0)%nat.

(** [int(x)] on a float: truncation toward zero. *)
Definition py_int (x : Q) : Z := Z.quot (Qnum x) (Z.pos (Qden x)).

(** [round(x, ndigits)] for [ndigits >= 0]: the nearest multiple of
    [10 ** -ndigits], a tie going to the even one.  (The float that Python
    returns is the double nearest to this decimal, and is printed as it.) *)
Definition round_half_even (x : Q) : Z :=
  let f := Qfloor x in
  match Qcompare (x - inject_Z f) (1 # 2) with
  | Lt => f
  | Gt => f + 1
  | Eq => if Z.even f then f else f + 1
  end.
Definition py_round (x : Q) (ndigits : Z) : Q :=
  (inject_Z (round_half_even (x * inject_Z (10 ^ ndigits))) / inject_Z (10 ^ ndigits))%Q.

(** ** Floats

    A Python float is a binary64 number: [m * 2^e] with [|m| < 2^53] and
    [e >= -1074].  [pow2 e] is [2^e]; [Qlog2 x] is the integer part of the
    binary logarithm of a positive [x]; [ulp_exponent x] is the exponent of
    the last binary digit that a double near [x] keeps: 52 places below the
    leading one, and never below [2^-1074]. *)
Definition pow2 (e : Z) : Q := (2 ^ e)%Q.

Definition Qlog2 (x : Q) : Z :=
  let l := Z.log2 (Qnum x) - Z.log2 (Z.pos (Qden x)) in
  if Qle_bool (pow2 l) x then l else l - 1.

Definition ulp_exponent (x : Q) : Z := Z.max (Qlog2 (Qabs x) - 52) (-1074).

(** The double nearest to [x], a tie going to the even one. *)
Definition round_float (x : Q) : Q :=
  let e := ulp_exponent x in
  (inject_Z (round_half_even (x / pow2 e)) * pow2 e)%Q.

(** [float(n)] for an int, a decimal literal such as [0.7], and the
    operations [x * y], [x - y] and [x / y] on floats. *)
Definition float_of_int (n : Z) : Q := round_float (inject_Z n).
Definition float_lit (x : Q) : Q := round_float x.
Definition fmul (x y : Q) : Q := round_float (x * y).
Definition fsub (x y : Q) : Q := round_float (x - y).
Definition fdiv (x y : Q) : Q := round_float (x / y).

(** The doubles: the numbers that rounding leaves unchanged. *)
Definition is_float (x : Q) : bool := Qeq_bool (round_float x) x.

(** [x] is the positive double [M * 2^k]. *)
Definition repr (x : Q) (M k : Z) : Prop :=
  0 < M < 2 ^ 53 ∧ -1074 ≤ k ∧ (x == inject_Z M * pow2 k)%Q.

(** The format specifications [{n}] and [{n:02d}] of an f-string on an
    int: [02d] pads with zeros to a width of two, the sign counted. *)
Definition fmt_d (n : Z) : string := pretty n.
Definition fmt_02d (n : Z) : string :=
  if n <? 0 then pretty n
  else if n <? 10 then "0" +:+ pretty n
  else pretty n.

(** [str.lower()] as it acts on ASCII text: the letters A to Z are
    mapped to a to z and every other byte is kept.  (On other text
    [str.lower] follows the Unicode tables; the tools take it from the
    runtime, below.) *)
Definition lower_ascii (c : ascii) : ascii :=
  let n := nat_of_ascii c in
  if ((65 <=? n) && (n <=? 90))%nat then ascii_of_nat (n + 32) else c.
Fixpoint ascii_lower (s : string) : string :=
  match s with
  | EmptyString => EmptyString
  | String c s' => String (lower_ascii c) (ascii_lower s')
  end.

(** [min(iterable, key=..., default=None)] and [max(iterable, key=...)]:
    the running best is replaced only by a strictly smaller (larger) key,
    so the first extremal element in iteration order is returned. *)
Section MinMax.
Context {A K : Type} (lt : K → K → bool) (key : A → K).

Fixpoint min_from (best : A) (l : list A) : A :=
  match l with
  | [] => best
  | x :: l' => min_from (if lt (key x) (key best) then x else best) l'
  end.

Definition py_min (l : list A) : option A :=
  match l with
  | [] => None
  | x :: l' => Some (min_from x l')
  end.

Fixpoint max_from (best : A) (l : list A) : A :=
  match l with
  | [] => best
  | x :: l' => max_from (if lt (key best) (key x) then x else best) l'
  end.

Definition py_max (l : list A) : option A :=
  match l with
  | [] => None
  | x :: l' => Some (max_from x l')
  end.
End MinMax.

(** [best], at index [i] of [l], has the least key, and every element
    before it has a strictly greater one. *)
Definition first_min {A} (key : A → Q) (l : list A) (i : nat) (best : A) : Prop :=
  l !! i = Some best ∧
  (∀ p, p ∈ l → (key best <= key p)%Q) ∧
  (∀ j p, l !! j = Some p → (j < i)%nat → (key best < key p)%Q).

(* ===================================================================== *)
(** * response_builder.py *)
(* ===================================================================== *)

Module ResponseBuilder.

(** The envelope a tool returns.  The host receives its JSON text; the
    rendering keeps exactly the keys of the envelope. *)
Abbreviation Envelope := (gmap string pyval).

(** Modelled from the spec: [ResponseBuilder.build_response] of
    response_builder.py, which is not among the sources.  The success
    envelope holds [data]; [analysis] and [metadata] are included when
    present and non-empty and omitted otherwise; [query_type] is included
    when present. *)
Definition build_response (data : pyval) (analysis metadata : option dict)
    (query_type : option string) : Envelope :=
  let response : dict := {["data" := data]} in
  let response :=
    match analysis with
    | Some a => set_if (negb (dict_empty a)) "analysis" (VDict a) response
    | None => response
    end in
  let response :=
    match metadata with
    | Some m => set_if (negb (dict_empty m)) "metadata" (VDict m) response
    | None => response
    end in
  set_some query_type "query_type" VStr response.

(** Modelled from the spec: [ResponseBuilder.build_error_response]: the
    error envelope holds the message and the error kind; [suggestions] is
    included when present and non-empty. *)
Definition build_error_response (message : string) (error_type : string)
    (suggestions : option (list string)) : Envelope :=
  let response : dict :=
    <["error_type" := VStr error_type]> {["error" := VStr message]} in
  match suggestions with
  | Some (s :: l) => <["suggestions" := VList (VStr <$> (s :: l))]> response
  | _ => response
  end.

End ResponseBuilder.
Import ResponseBuilder.

(* ===================================================================== *)
(** * Effects of a tool call *)
(* ===================================================================== *)

(** Exceptions.  [ICUAPIError] is the classified error of the API client;
    [AssertionError] is raised by [assert]; [OtherError] stands for any
    other subclass of [Exception], with its [str(e)];
    [BaseExceptionOnly] stands for an exception that derives from
    [BaseException] and not from [Exception]: [asyncio.CancelledError],
    raised at an [await] when the call is cancelled, [KeyboardInterrupt],
    [SystemExit]. *)
Inductive exn :=
| ICUAPIError (message : string)
| AssertionError
| OtherError (text : string)
| BaseExceptionOnly (name : string).

Definition str_exn (e : exn) : string :=
  match e with
  | ICUAPIError m => m
  | AssertionError => ""
  | OtherError t => t
  | BaseExceptionOnly _ => ""
  end.

(** [isinstance(e, Exception)]. *)
Definition is_exception (e : exn) : bool :=
  match e with
  | BaseExceptionOnly _ => false
  | _ => true
  end.

(** What a tool does to the outside: it constructs the API client
    ([ICUClient(config)]) and sends requests through it. *)
Inductive event :=
| ClientConstructed
| Request (endpoint : string).

(** A computation: the events it performed, and a raised exception or a
    value. *)
Definition tool (A : Type) : Type := list event * (exn + A).

#[export] Instance tool_ret : MRet tool := λ A a, ([], inr a).
#[export] Instance tool_bind : MBind tool := λ A B k m,
  match m with
  | (t, inl e) => (t, inl e)
  | (t, inr a) => let '(t', r) := k a in (t ++ t', r)
  end.

Definition raise {A} (e : exn) : tool A := ([], inl e).
Definition lift {A} (r : exn + A) : tool A := ([], r).
Definition emit (ev : event) : tool unit := ([ev], inr tt).

(** [try: body except ... as e: handler(e)]. *)
Definition try_except {A} (body : tool A) (handler : exn → tool A) : tool A :=
  match body with
  | (t, inl e) => let '(t', r) := handler e in (t ++ t', r)
  | (t, inr a) => (t, inr a)
  end.

(** [async with ICUClient(config) as client: body]. *)
Definition with_client {A} (body : tool A) : tool A :=
  _ ← emit ClientConstructed; body.

(** [await client.endpoint(...)], answered by the remote API with
    [response]. *)
Definition request {A} (endpoint : string) (response : exn + A) : tool A :=
  _ ← emit (Request endpoint); lift response.

(** Modelled from the spec: the resolved configuration the middleware
    stores in the per-call context. *)
Record ICUConfig := { athlete_id : string; api_key : string }.

(** What the tools take from the Python runtime and the clock:
    [str_lower s] is [s.lower()]; [days_ago d] is
    [(datetime.now() - timedelta(days=d)).strftime("%Y-%m-%d")], which
    reads the clock and may raise (OverflowError); [strptime_ok date] tells
    whether [datetime.strptime(date, "%Y-%m-%d")] returns (it raises
    ValueError otherwise). *)
Record Runtime := {
  str_lower : string → string;
  days_ago : Z → exn + string;
  strptime_ok : string → bool;
}.

(** [assert ctx is not None; config = await ctx.get_state("config")]: the
    context is the optional argument [ctx] of every tool, [None] by
    default. *)
Definition get_config (ctx : option ICUConfig) : tool ICUConfig :=
  match ctx with
  | Some config => mret config
  | None => raise AssertionError
  end.

(** The two [except] clauses that close the [try] block of a tool:
    [except ICUAPIError as e] with the tool's suggestions, then
    [except Exception as e] with the tool's catch-all envelope.  An
    exception that is not an [Exception] matches neither clause and
    propagates. *)
Definition internal_error (e : exn) : Envelope :=
  build_error_response ("Unexpected error: " +:+ str_exn e) "internal_error" None.
Definition unexpected_error (e : exn) : Envelope :=
  build_error_response (str_exn e) "unexpected_error" None.

Definition except_clauses (suggestions : option (list string))
    (catch_all : exn → Envelope) (e : exn) : tool Envelope :=
  match e with
  | ICUAPIError message =>
      mret (build_error_response message "api_error" suggestions)
  | BaseExceptionOnly _ => raise e
  | _ => mret (catch_all e)
  end.

Definition tool_try (suggestions : option (list string))
    (catch_all : exn → Envelope) (body : tool Envelope) : tool Envelope :=
  try_except body (except_clauses suggestions catch_all).

(** How a call ended, for the host. *)
Definition returned {A} (m : tool A) : option A :=
  match m.2 with inr a => Some a | inl _ => None end.
Definition raised {A} (m : tool A) : option exn :=
  match m.2 with inl e => Some e | inr _ => None end.
Definition trace {A} (m : tool A) : list event := m.1.

(** A call that ended with a success envelope. *)
Definition succeeded (m : tool Envelope) (envelope : Envelope) : Prop :=
  returned m = Some envelope ∧
  raised m = None ∧
  is_Some (envelope !! "data") ∧
  envelope !! "error" = None.

(** An error envelope of the given kind. *)
Definition error_envelope (kind : string) (envelope : Envelope) : Prop :=
  envelope !! "error_type" = Some (VStr kind) ∧
  (∃ message, envelope !! "error" = Some (VStr message)) ∧
  envelope !! "data" = None.

(** A call in whose [try] block the exception [e] arose converts it: an
    API error to an "api_error" envelope carrying its message, any other
    exception to an envelope of the kind [catch_all_kind]. *)
Definition converts (catch_all_kind : string) (call : tool Envelope) (e : exn)
    : Prop :=
  ∃ envelope, returned call = Some envelope ∧
    match e with
    | ICUAPIError message =>
        error_envelope "api_error" envelope ∧
        envelope !! "error" = Some (VStr message)
    | _ => error_envelope catch_all_kind envelope
    end.

(** The conversion as the specification words it: the catch-all kind is
    "internal_error" for every tool and every exception. *)
Definition converts_as_stated (call : tool Envelope) (e : exn) : Prop :=
  converts "internal_error" call e.

(** The exception [e] leaves the call: the host sees it raised, and no
    envelope. *)
Definition escapes {A} (call : tool A) (e : exn) : Prop :=
  raised call = Some e ∧ returned call = None.

(** What a call owes for the exception [e] arisen in its [try] block, as
    the code has it: an [Exception] is converted, any other exception
    escapes. *)
Definition handles (catch_all_kind : string) (call : tool Envelope) (e : exn)
    : Prop :=
  if is_exception e then converts catch_all_kind call e else escapes call e.

(** How a call can end: with an envelope, or with an exception that is not
    an [Exception]. *)
Definition returns_or_propagates (call : tool Envelope) : Prop :=
  is_Some (returned call) ∨
  ∃ name, escapes call (BaseExceptionOnly name).

(** A call rejected as a validation error; before the API client was
    constructed (no event at all), or at least before any request. *)
Definition validation_rejected (call : tool Envelope) : Prop :=
  ∃ envelope, returned call = Some envelope ∧
    error_envelope "validation_error" envelope.

Definition rejected_before_client (call : tool Envelope) : Prop :=
  trace call = [] ∧ validation_rejected call.

Definition rejected_before_request (call : tool Envelope) : Prop :=
  (∀ endpoint, Request endpoint ∉ trace call) ∧ validation_rejected call.

(** A sample configuration. *)
Definition sample_config : ICUConfig :=
  {| athlete_id := "i123456"; api_key := "key" |}.

(** A runtime for the worked inputs: ASCII text, a fixed clock, and a date
    check that accepts a single date. *)
Definition sample_runtime : Runtime :=
  {| str_lower := ascii_lower;
     days_ago := λ _, inr "2024-02-23";
     strptime_ok := λ date, String.eqb date "2024-03-01" |}.

(* ===================================================================== *)
(** * Pace formatting (activity_analysis.py, curves.py) *)
(* ===================================================================== *)

(** The whole minutes and the seconds within the minute of a pace given in
    minutes per kilometre: [minutes = int(v)] and
    [seconds_part = int((v - minutes) * 60)].  The difference and the
    product are float operations: [minutes] and [60] are converted to
    floats and each result is rounded to the nearest double. *)
Definition pace_minutes (v : Q) : Z := py_int v.
Definition pace_seconds (v : Q) : Z :=
  py_int (fmul (fsub v (float_of_int (pace_minutes v))) (float_of_int 60)).

(** [f"{minutes}:{seconds_part:02d} /km"], as the pace and GAP histograms
    and the pace curve write it. *)
Definition pace_formatted (v : Q) : string :=
  fmt_d (pace_minutes v) +:+ ":" +:+ fmt_02d (pace_seconds v) +:+ " /km".

(** The decimal digit [d] as a character. *)
Definition digit_char (d : Z) : ascii := ascii_of_nat (48 + Z.to_nat d).

(** The rendering as the specification words it, in the arithmetic of the
    real numbers: the minutes are the integer part of [v], the seconds are
    the integer part of [(v - minutes) * 60], below 60 and written with
    two digits [d1 d2]. *)
Definition truncated_pace (v : Q) (text : string) : Prop :=
  ∃ d1 d2 : Z,
    0 ≤ d1 ≤ 5 ∧ 0 ≤ d2 ≤ 9 ∧
    pace_minutes v = Qfloor v ∧
    pace_seconds v = Qfloor ((v - inject_Z (Qfloor v)) * 60)%Q ∧
    pace_seconds v = 10 * d1 + d2 ∧
    text = fmt_d (Qfloor v) +:+ ":"
           +:+ String (digit_char d1) (String (digit_char d2) " /km").

(** The rendering as the tools compute it.  The minutes are the integer
    part of [v]; the fraction of a minute [v - minutes] is computed without
    error; the seconds are the integer part of the double nearest to the
    product of that fraction by 60.  They are a number from 0 to 59,
    written with two digits [d1 d2]: the whole seconds contained in the
    fraction, or one more when the product rounds up to a whole number. *)
Definition computed_pace (v : Q) (text : string) : Prop :=
  let fraction := (v - inject_Z (Qfloor v))%Q in
  ∃ d1 d2 : Z,
    0 ≤ d1 ≤ 5 ∧ 0 ≤ d2 ≤ 9 ∧
    pace_minutes v = Qfloor v ∧
    (fsub v (float_of_int (pace_minutes v)) == fraction)%Q ∧
    pace_seconds v = Qfloor (round_float (fraction * 60)) ∧
    pace_seconds v = 10 * d1 + d2 ∧
    Qfloor (fraction * 60) ≤ pace_seconds v ≤ Qfloor (fraction * 60) + 1 ∧
    Qfloor (v * 60) ≤ 60 * pace_minutes v + pace_seconds v ≤ Qfloor (v * 60) + 1 ∧
    text = fmt_d (Qfloor v) +:+ ":"
           +:+ String (digit_char d1) (String (digit_char d2) " /km").

(** Formatting to the nearest second instead, for comparison only: the
    tools do not do this. *)
Definition pace_nearest_second (v : Q) : Z * Z :=
  let total := round_half_even (v * 60)%Q in (total `div` 60, total `mod` 60).

(* ===================================================================== *)
(** * tools/curves.py and tools/performance.py *)
(* ===================================================================== *)

Module Curves.

(** Modelled from the spec: a raw curve point of the API client
    (models.py).  [value] is the attribute [watts] of a power curve point,
    [bpm] of a heart-rate curve point and [pace] of a pace curve point. *)
Record CurvePoint (V : Type) := {
  secs : Q;
  value : option V;
  date : option string;
  src_activity_id : option string;
}.
Arguments secs {V} _.
Arguments value {V} _.
Arguments date {V} _.
Arguments src_activity_id {V} _.

(** The [key_durations] tables, in the order the dict literals list them. *)
Definition key_durations_power : list (Z * string) :=
  [(5, "5_sec"); (15, "15_sec"); (30, "30_sec"); (60, "1_min");
   (120, "2_min"); (300, "5_min"); (600, "10_min"); (1200, "20_min");
   (3600, "1_hour")].
Definition key_durations_hr : list (Z * string) :=
  [(5, "5_sec"); (15, "15_sec"); (30, "30_sec"); (60, "1_min");
   (120, "2_min"); (300, "5_min"); (600, "10_min"); (1200, "20_min");
   (3600, "1_hour")].
Definition key_durations_pace : list (Z * string) :=
  [(60, "400m_equivalent"); (180, "1km_equivalent"); (300, "5_min");
   (600, "10_min"); (900, "15_min"); (1200, "20_min"); (1800, "30_min");
   (3600, "1_hour")].

(** The [date] and [activity_id] entries every effort may carry. *)
Definition effort_source {V} (p : CurvePoint V) (effort : dict) : dict :=
  let effort :=
    set_if (truthy_str (date p)) "date" (of_opt VStr (date p)) effort in
  set_if (truthy_str (src_activity_id p)) "activity_id"
    (of_opt VStr (src_activity_id p)) effort.

(** The [effort] dict of [get_power_curves], [get_hr_curves] and
    [get_pace_curves]. *)
Definition power_effort (p : CurvePoint Z) : dict :=
  effort_source p
    (<["duration_seconds" := VNum (secs p)]> {["watts" := of_opt VInt (value p)]}).

Definition hr_effort (p : CurvePoint Z) : dict :=
  effort_source p
    (<["duration_seconds" := VNum (secs p)]> {["bpm" := of_opt VInt (value p)]}).

Definition pace_effort (p : CurvePoint Q) : dict :=
  let effort : dict :=
    <["duration_seconds" := VNum (secs p)]>
      {["pace_min_per_km" := of_opt VNum (value p)]} in
  let effort :=
    match value p with
    | Some pace =>
        set_if (truthy_num (Some pace)) "pace_formatted"
          (VStr (pace_formatted pace)) effort
    | None => effort
    end in
  effort_source p effort.

(** The loop [for seconds, label in key_durations.items()], written three
    times in the sources with the three effort dicts above. *)
Section PeakEfforts.
Context {V : Type} (effort_of : CurvePoint V → dict).

(** [abs(p.secs - seconds)]. *)
Definition distance (seconds : Z) (p : CurvePoint V) : Q :=
  Qabs (secs p - inject_Z seconds).

(** [min(curve.data, key=lambda p: abs(p.secs - seconds), default=None)]. *)
Definition closest_point (data : list (CurvePoint V)) (seconds : Z)
    : option (CurvePoint V) :=
  py_min Qltb (distance seconds) data.

(** [abs(closest_point.secs - seconds) <= seconds * 0.1].  For each target
    of the three tables, a tenth of it is a binary fraction (0.5, 1.5, 3,
    6, ..., 360) and the float product [seconds * 0.1] is that number
    exactly. *)
Definition within_tolerance (seconds : Z) (p : CurvePoint V) : bool :=
  Qle_bool (distance seconds p) (inject_Z seconds * (1 # 10)).

Definition peak_step (data : list (CurvePoint V)) (peak_efforts : dict)
    (target : Z * string) : dict :=
  let '(seconds, label) := target in
  match closest_point data seconds with
  | Some p =>
      if within_tolerance seconds p
      then <[label := VDict (effort_of p)]> peak_efforts
      else peak_efforts
  | None => peak_efforts
  end.

Definition peak_efforts (key_durations : list (Z * string))
    (data : list (CurvePoint V)) : dict :=
  foldl (peak_step data) ∅ key_durations.

(** The entry one target contributes to [peak_efforts], if any. *)
Definition entry (data : list (CurvePoint V)) (seconds : Z) : option pyval :=
  match closest_point data seconds with
  | Some p =>
      if within_tolerance seconds p then Some (VDict (effort_of p)) else None
  | None => None
  end.
End PeakEfforts.

Definition power_peak_efforts := peak_efforts power_effort key_durations_power.
Definition hr_peak_efforts := peak_efforts hr_effort key_durations_hr.
Definition pace_peak_efforts := peak_efforts pace_effort key_durations_pace.

(** What the matcher owes for a curve and a table.  [best] at index [i] is
    the nearest point to the target, and the first such in the order of
    the curve; the label is in the result exactly when [best] is within
    the tolerance, and then it holds the effort of [best]. *)
Definition nearest_first {V} (seconds : Z) (data : list (CurvePoint V))
    (i : nat) (best : CurvePoint V) : Prop :=
  first_min (distance seconds) data i best.

Definition matcher_spec {V} (effort_of : CurvePoint V → dict)
    (key_durations : list (Z * string)) (data : list (CurvePoint V)) : Prop :=
  ∀ seconds label, (seconds, label) ∈ key_durations →
    ∃ i best,
      closest_point data seconds = Some best ∧
      nearest_first seconds data i best ∧
      (is_Some (peak_efforts effort_of key_durations data !! label)
       ↔ (Qabs (secs best - inject_Z seconds) <= inject_Z seconds * (1 # 10))%Q) ∧
      (∀ v, peak_efforts effort_of key_durations data !! label = Some v →
         v = VDict (effort_of best)).

(** The shorthands of [time_period], in days. *)
Definition period_map : gmap string Z :=
  {["week" := 7; "month" := 30; "year" := 365]}.

(** The date range, written alike in the three tools: [oldest] for the
    client and the [period_label], or the validation envelope returned at
    once.  [days_back], when given, decides alone; [time_period] is looked
    at only otherwise. *)
Definition resolve_period (rt : Runtime)
    (days_back : option Z) (time_period : option string)
    : tool (Envelope + option string * string) :=
  match days_back with
  | Some d =>
      oldest ← lift (days_ago rt d);
      mret (inr (Some oldest, fmt_d d +:+ "_days"))
  | None =>
      if truthy_str time_period then
        let tp := str_lower rt (default "" time_period) in
        match period_map !! tp with
        | Some days =>
            oldest ← lift (days_ago rt days);
            mret (inr (Some oldest, tp))
        | None =>
            if String.eqb tp "all" then mret (inr (None, "all_time"))
            else
              mret (inl (build_error_response
                "Invalid time_period. Use 'week', 'month', 'year', or 'all'"
                "validation_error" None))
        end
      else
        oldest ← lift (days_ago rt 90);
        mret (inr (Some oldest, "90_days"))
  end.

(** [bpm or 0]. *)
Definition bpm_or_0 (p : CurvePoint Z) : Z := default 0 (value p).

(** The summary statistics of [get_hr_curves] over a non-empty curve
    [p0 :: rest]. *)
Definition hr_summary (p0 : CurvePoint Z) (rest : list (CurvePoint Z)) : dict :=
  let data := p0 :: rest in
  let max_hr_point := max_from Z.ltb bpm_or_0 p0 rest in
  let min_duration := min_from Qltb secs p0 rest in
  let max_duration := max_from Qltb secs p0 rest in
  let summary : dict :=
    {[ "total_data_points" := VInt (Z.of_nat (length data));
       "max_hr_bpm" := of_opt VInt (value max_hr_point);
       "max_hr_duration_seconds" := VNum (secs max_hr_point);
       "duration_range" :=
         VDict {[ "min_seconds" := VNum (secs min_duration);
                  "max_seconds" := VNum (secs max_duration) ]} ]} in
  let dates := omap (λ p, if truthy_str (date p) then date p else None) data in
  match dates with
  | [] => summary
  | d0 :: ds =>
      <["effort_date_range" :=
          VDict {[ "oldest" := VStr (min_from String.ltb id d0 ds);
                   "newest" := VStr (max_from String.ltb id d0 ds) ]}]> summary
  end.

(** The heart-rate zones of [get_hr_curves]: fractions of the maximum, as
    the decimal literals of the source; [hr_zone] reads them as floats. *)
Definition zones : list (string * (Q * Q)) :=
  [("zone_1_recovery", (1 # 2, 3 # 5)); ("zone_2_endurance", (3 # 5, 7 # 10));
   ("zone_3_tempo", (7 # 10, 4 # 5)); ("zone_4_threshold", (4 # 5, 9 # 10));
   ("zone_5_vo2max", (9 # 10, 1))]%Q.

Definition hr_zone (max_hr : Z) (low high : Q) : dict :=
  {[ "min_bpm" := VInt (py_int (fmul (float_of_int max_hr) (float_lit low)));
     "max_bpm" := VInt (py_int (fmul (float_of_int max_hr) (float_lit high)));
     "min_percent_max" := VInt (py_int (fmul (float_lit low) (float_of_int 100)));
     "max_percent_max" := VInt (py_int (fmul (float_lit high) (float_of_int 100))) ]}.

Definition hr_zones (max_hr : Z) : dict :=
  foldl (λ (acc : dict) z, <[z.1 := VDict (hr_zone max_hr z.2.1 z.2.2)]> acc) ∅ zones.

(** The envelope of [get_hr_curves] once the curve is fetched. *)
Definition hr_curves_response (period_label : string)
    (data : list (CurvePoint Z)) : Envelope :=
  match data with
  | [] =>
      build_response
        (VDict {[ "hr_curve" := VList []; "period" := VStr period_label ]})
        None
        (Some {[ "message" := VStr ("No HR curve data available for "
                   +:+ period_label +:+ ". "
                   +:+ "Complete some activities with heart rate to build your HR curve.") ]})
        None
  | p0 :: rest =>
      let max_hr_point := max_from Z.ltb bpm_or_0 p0 rest in
      let result_data : dict :=
        {[ "period" := VStr period_label;
           "peak_efforts" := VDict (hr_peak_efforts data);
           "summary" := VDict (hr_summary p0 rest) ]} in
      let result_data :=
        match value max_hr_point with
        | Some max_hr =>
            set_if (truthy_int (Some max_hr) && negb (dict_empty (hr_zones max_hr)))
              "hr_zones" (VDict (hr_zones max_hr)) result_data
        | None => result_data
        end in
      build_response (VDict result_data) None None (Some "hr_curves")
  end.

(** [get_hr_curves(days_back, time_period, ctx)].  [remote oldest] is the
    answer of the API to [client.get_hr_curves(oldest=oldest)]. *)
Definition get_hr_curves (rt : Runtime)
    (remote : option string → exn + list (CurvePoint Z))
    (days_back : option Z) (time_period : option string)
    (ctx : option ICUConfig) : tool Envelope :=
  config ← get_config ctx;
  tool_try None internal_error
    (period ← resolve_period rt days_back time_period;
     match period with
     | inl validation_error => mret validation_error
     | inr (oldest, period_label) =>
         with_client
           (hr_curve ← request "get_hr_curves" (remote oldest);
            mret (hr_curves_response period_label hr_curve))
     end).

(** Sample points and curves. *)
Definition point {V} (s : Q) (v : V) : CurvePoint V :=
  {| secs := s; value := Some v; date := Some "2024-03-01";
     src_activity_id := Some "i1" |}.
Definition sample_power : list (CurvePoint Z) := [point 58 410; point 65 395].
Definition sample_hr : list (CurvePoint Z) := [point 40 181].
Definition sample_pace : list (CurvePoint Q) :=
  [point 62 (9 # 2); point 58 (float_lit (22 # 5)); point 1300 5%Q].

End Curves.

(* ===================================================================== *)
(** * tools/activity_analysis.py *)
(* ===================================================================== *)

Module Histogram.

(** Modelled from the spec: a histogram bin of the API client (models.py). *)
Record Bin := {
  min : Q;
  max : Q;
  count : Z;
  secs : option Q;
}.

(** The [bin_data] dict of [get_pace_histogram]. *)
Definition pace_bin_data (bin_item : Bin) : dict :=
  let bin_data : dict :=
    {[ "pace_range" :=
         VDict {[ "min_pace_min_per_km" := VNum (min bin_item);
                  "max_pace_min_per_km" := VNum (max bin_item);
                  "min_pace_formatted" := VStr (pace_formatted (min bin_item));
                  "max_pace_formatted" := VStr (pace_formatted (max bin_item)) ]};
       "count" := VInt (count bin_item) ]} in
  set_some (secs bin_item) "time_seconds" VNum bin_data.

(** The [bin_data] dict of [get_gap_histogram]. *)
Definition gap_bin_data (bin_item : Bin) : dict :=
  let bin_data : dict :=
    {[ "gap_range" :=
         VDict {[ "min_gap_min_per_km" := VNum (min bin_item);
                  "max_gap_min_per_km" := VNum (max bin_item);
                  "min_gap_formatted" := VStr (pace_formatted (min bin_item));
                  "max_gap_formatted" := VStr (pace_formatted (max bin_item)) ]};
       "count" := VInt (count bin_item) ]} in
  set_some (secs bin_item) "time_seconds" VNum bin_data.

(** [bins_data], one entry per bin in the order received. *)
Definition pace_bins_data (bins : list Bin) : list dict := pace_bin_data <$> bins.
Definition gap_bins_data (bins : list Bin) : list dict := gap_bin_data <$> bins.

(** The formatted bounds, read back from a [bin_data] dict. *)
Definition formatted_bounds (range_key min_key max_key : string) (bin_data : dict)
    : option (pyval * pyval) :=
  match bin_data !! range_key with
  | Some (VDict range) =>
      match range !! min_key, range !! max_key with
      | Some lo, Some hi => Some (lo, hi)
      | _, _ => None
      end
  | _ => None
  end.

(** The two renderings of the bounds of a bin, in the pace and in the GAP
    histogram: as the specification words them, and as the tools compute
    them. *)
Definition bounds_rendered (rendering : Q → string → Prop) (bin_item : Bin)
    : Prop :=
  ∃ lo hi : string,
    formatted_bounds "pace_range" "min_pace_formatted" "max_pace_formatted"
      (pace_bin_data bin_item) = Some (VStr lo, VStr hi) ∧
    formatted_bounds "gap_range" "min_gap_formatted" "max_gap_formatted"
      (gap_bin_data bin_item) = Some (VStr lo, VStr hi) ∧
    rendering (min bin_item) lo ∧
    rendering (max bin_item) hi.

Definition bounds_as_stated : Bin → Prop := bounds_rendered truncated_pace.
Definition bounds_as_computed : Bin → Prop := bounds_rendered computed_pace.

(** A sample bin, from 3.999 to 4.5 minutes per kilometre, and one whose
    lower bound is the double nearest to 4 minutes 46 seconds, which is
    printed as 4.766666666666667 and lies just below 286/60. *)
Definition sample_bin : Bin :=
  {| min := float_lit (3999 # 1000); max := float_lit (9 # 2); count := 120;
     secs := Some 120%Q |}.
Definition rounded_bin : Bin :=
  {| min := float_lit (286 # 60); max := float_lit (5 # 1); count := 7;
     secs := None |}.

End Histogram.

(* ===================================================================== *)
(** * tools/activities.py *)
(* ===================================================================== *)

(** [list.sort(key=...)] on string keys: the stable sort.  Elements are
    compared by [<] on their keys, strings in lexicographic order of their
    characters. *)
Section SortByKey.
Context {A : Type} (key : A → string).

Fixpoint insert_by (x : A) (l : list A) : list A :=
  match l with
  | [] => [x]
  | y :: l' =>
      if String.ltb (key y) (key x) then y :: insert_by x l' else x :: y :: l'
  end.

Definition sort_by (l : list A) : list A := foldr insert_by [] l.

(** Ascending order of the keys. *)
Definition key_le (a b : A) : Prop := String.leb (key a) (key b) = true.
End SortByKey.

Module Activities.

(** Modelled from the spec: an activity summary of the API client
    (models.py), with the attributes [get_activities_around] reads. *)
Record Activity := {
  id : string;
  name : option string;
  type : option string;
  start_date_local : string;
  distance : option Q;
  moving_time : option Z;
  icu_training_load : option Z;
  average_watts : option Q;
  average_heartrate : option Q;
}.

(** [next((i for i, a in enumerate(activities) if a.id == activity_id), None)]. *)
Definition find_ref_index (activity_id : string) (activities : list Activity)
    : option nat :=
  fst <$> list_find (λ a, id a = activity_id) activities.

(** The body of the loop [for i, activity in enumerate(activities)]. *)
Definition activity_item (activity_id : string) (ref_index : option nat)
    (i : nat) (activity : Activity) : dict :=
  let activity_item : dict :=
    {[ "id" := VStr (id activity);
       "name" := VStr (if truthy_str (name activity)
                       then default "" (name activity) else "Untitled");
       "type" := of_opt VStr (type activity);
       "start_date" := VStr (start_date_local activity) ]} in
  let activity_item :=
    if String.eqb (id activity) activity_id then
      <["is_reference" := VBool true]> activity_item
    else
      match ref_index with
      | Some ref_index =>
          if (i <? ref_index)%nat then
            <["days_before" := VInt (Z.of_nat ref_index - Z.of_nat i)]>
              (<["position" := VStr "before"]> activity_item)
          else
            <["days_after" := VInt (Z.of_nat i - Z.of_nat ref_index)]>
              (<["position" := VStr "after"]> activity_item)
      | None => activity_item
      end in
  let activity_item :=
    set_if (truthy_num (distance activity)) "distance_meters"
      (of_opt VNum (distance activity)) activity_item in
  let activity_item :=
    set_if (truthy_int (moving_time activity)) "moving_time_seconds"
      (of_opt VInt (moving_time activity)) activity_item in
  let activity_item :=
    set_if (truthy_int (icu_training_load activity)) "training_load"
      (of_opt VInt (icu_training_load activity)) activity_item in
  let performance : dict :=
    set_if (truthy_num (average_heartrate activity)) "average_heartrate"
      (of_opt VNum (average_heartrate activity))
      (set_if (truthy_num (average_watts activity)) "average_watts"
         (of_opt VNum (average_watts activity)) ∅) in
  set_if (negb (dict_empty performance)) "performance" (VDict performance)
    activity_item.

(** The activities in the order of the response. *)
Definition sorted_activities (activities : list Activity) : list Activity :=
  sort_by start_date_local activities.

(** [activities_data]. *)
Definition activities_data (activity_id : string) (activities : list Activity)
    : list dict :=
  let activities := sorted_activities activities in
  let ref_index := find_ref_index activity_id activities in
  imap (activity_item activity_id ref_index) activities.

(** [result_data]. *)
Definition result_data (activity_id : string) (activities : list Activity) : dict :=
  let items := activities_data activity_id activities in
  let activities := sorted_activities activities in
  let ref_index := find_ref_index activity_id activities in
  let result_data : dict :=
    {[ "reference_activity_id" := VStr activity_id;
       "activities" := VList (VDict <$> items);
       "count" := VInt (Z.of_nat (length items)) ]} in
  match ref_index with
  | Some ref_index =>
      <["activities_after" :=
          VInt (Z.of_nat (length activities) - Z.of_nat ref_index - 1)]>
        (<["activities_before" := VInt (Z.of_nat ref_index)]>
           (<["reference_position" := VInt (Z.of_nat ref_index)]> result_data))
  | None => result_data
  end.

(** The envelope of [get_activities_around] once the list is fetched. *)
Definition around_response (activity_id : string) (activities : list Activity)
    : Envelope :=
  match activities with
  | [] =>
      build_response
        (VDict {[ "activities" := VList []; "count" := VInt 0;
                  "reference_activity_id" := VStr activity_id ]})
        None
        (Some {[ "message" :=
                   VStr "No activities found around the reference activity" ]})
        None
  | _ =>
      build_response (VDict (result_data activity_id activities)) None None
        (Some "activities_around")
  end.

(** [get_activities_around(activity_id, count, ctx)]. *)
Definition get_activities_around
    (remote : string → Z → exn + list Activity)
    (activity_id : string) (count : Z) (ctx : option ICUConfig)
    : tool Envelope :=
  config ← get_config ctx;
  tool_try None internal_error
    (with_client
       (activities ← request "get_activities_around" (remote activity_id count);
        mret (around_response activity_id activities))).

(** The annotations an entry of [activities_data] can carry. *)
Definition before_item (ref_index i : nat) (item : dict) : Prop :=
  item !! "position" = Some (VStr "before") ∧
  item !! "days_before" = Some (VInt (Z.of_nat ref_index - Z.of_nat i)) ∧
  item !! "days_after" = None ∧
  item !! "is_reference" = None.

Definition after_item (ref_index i : nat) (item : dict) : Prop :=
  item !! "position" = Some (VStr "after") ∧
  item !! "days_after" = Some (VInt (Z.of_nat i - Z.of_nat ref_index)) ∧
  item !! "days_before" = None ∧
  item !! "is_reference" = None.

Definition reference_item (item : dict) : Prop :=
  item !! "is_reference" = Some (VBool true) ∧
  item !! "position" = None ∧
  item !! "days_before" = None ∧
  item !! "days_after" = None.

Definition unannotated_item (item : dict) : Prop :=
  item !! "is_reference" = None ∧
  item !! "position" = None ∧
  item !! "days_before" = None ∧
  item !! "days_after" = None.

(** Ascending order of [start_date_local], as strings. *)
Definition date_le (a b : Activity) : Prop :=
  String.leb (start_date_local a) (start_date_local b) = true.

(** The response lists the activities in ascending order of their dates. *)
Definition ordered (activity_id : string) (activities : list Activity) : Prop :=
  let sorted := sorted_activities activities in
  sorted ≡ₚ activities ∧
  StronglySorted date_le sorted ∧
  result_data activity_id activities !! "activities"
    = Some (VList (VDict <$> activities_data activity_id activities)) ∧
  length (activities_data activity_id activities) = length activities.

(** The entry at index [r] of the sorted list has the reference id. *)
Definition reference_at (activity_id : string) (activities : list Activity)
    (r : nat) : Prop :=
  ∃ a, sorted_activities activities !! r = Some a ∧ id a = activity_id.

(** The aggregate counts for the reference index [r]. *)
Definition counted (activity_id : string) (activities : list Activity)
    (r : nat) : Prop :=
  let data := result_data activity_id activities in
  data !! "reference_position" = Some (VInt (Z.of_nat r)) ∧
  data !! "activities_before" = Some (VInt (Z.of_nat r)) ∧
  data !! "activities_after"
    = Some (VInt (Z.of_nat (length activities) - Z.of_nat r - 1)).

(** The positioner as the specification words it: for the index [r] of
    the reference entry, every entry before it is annotated "before", every
    entry after it is annotated "after", and the reference entry itself is
    marked [is_reference]. *)
Definition positioned_as_stated (activity_id : string)
    (activities : list Activity) : Prop :=
  ∃ r, ordered activity_id activities ∧
    reference_at activity_id activities r ∧
    counted activity_id activities r ∧
    ∀ i a item,
      sorted_activities activities !! i = Some a →
      activities_data activity_id activities !! i = Some item →
      ((i < r)%nat → before_item r i item) ∧
      (i = r → reference_item item) ∧
      ((r < i)%nat → after_item r i item).

(** The positioner whatever the list: [r] is the index of the first entry
    with the reference id; every entry whose id is the reference id is
    marked as the reference, and the other entries are annotated by their
    side of [r]. *)
Definition positioned (activity_id : string) (activities : list Activity) : Prop :=
  ∃ r, ordered activity_id activities ∧
    find_ref_index activity_id (sorted_activities activities) = Some r ∧
    reference_at activity_id activities r ∧
    (∀ j a, sorted_activities activities !! j = Some a → (j < r)%nat →
       id a ≠ activity_id) ∧
    counted activity_id activities r ∧
    ∀ i a item,
      sorted_activities activities !! i = Some a →
      activities_data activity_id activities !! i = Some item →
      item !! "id" = Some (VStr (id a)) ∧
      ((i < r)%nat → before_item r i item) ∧
      (i = r → reference_item item) ∧
      (id a = activity_id → reference_item item) ∧
      ((r < i)%nat → id a ≠ activity_id → after_item r i item).

(** Exactly one entry of the list has the reference id: it is the
    reference entry. *)
Definition one_reference_entry (activity_id : string)
    (activities : list Activity) : Prop :=
  length (filter (λ a, id a = activity_id) activities) = 1%nat.

(** [item] is the entry of [activity] with no position annotation: it
    carries the identity of the activity and the metrics the activity has,
    and none of the four annotation fields. *)
Definition plain_entry (activity : Activity) (item : dict) : Prop :=
  item !! "id" = Some (VStr (id activity)) ∧
  item !! "name"
    = Some (VStr (match name activity with
                  | Some n => if String.eqb n "" then "Untitled" else n
                  | None => "Untitled"
                  end)) ∧
  item !! "type" = Some (of_opt VStr (type activity)) ∧
  item !! "start_date" = Some (VStr (start_date_local activity)) ∧
  item !! "distance_meters"
    = (if truthy_num (distance activity) then VNum <$> distance activity else None) ∧
  item !! "moving_time_seconds"
    = (if truthy_int (moving_time activity) then VInt <$> moving_time activity
       else None) ∧
  item !! "training_load"
    = (if truthy_int (icu_training_load activity)
       then VInt <$> icu_training_load activity else None) ∧
  (∀ performance, item !! "performance" = Some performance ↔
     (truthy_num (average_watts activity) = true ∨
      truthy_num (average_heartrate activity) = true) ∧
     ∃ metrics : dict, performance = VDict metrics ∧
       metrics !! "average_watts"
         = (if truthy_num (average_watts activity)
            then VNum <$> average_watts activity else None) ∧
       metrics !! "average_heartrate"
         = (if truthy_num (average_heartrate activity)
            then VNum <$> average_heartrate activity else None) ∧
       ∀ k, k ≠ "average_watts" → k ≠ "average_heartrate" → metrics !! k = None) ∧
  unannotated_item item ∧
  ∀ k, k ∉ ["id"; "name"; "type"; "start_date"; "distance_meters";
            "moving_time_seconds"; "training_load"; "performance"] →
       item !! k = None.

(** The response as the claim words it for a list without the reference:
    every activity is emitted, in ascending order of the dates, as its
    entry without annotation, and the data carries no reference counts. *)
Definition all_emitted_unannotated (activity_id : string)
    (activities : list Activity) : Prop :=
  let sorted := sorted_activities activities in
  let items := activities_data activity_id activities in
  let data := result_data activity_id activities in
  sorted ≡ₚ activities ∧
  StronglySorted date_le sorted ∧
  length items = length activities ∧
  (∀ i a, sorted !! i = Some a →
     ∃ item, items !! i = Some item ∧ plain_entry a item) ∧
  (∀ item, item ∈ items → unannotated_item item) ∧
  data !! "activities" = Some (VList (VDict <$> items)) ∧
  data !! "count" = Some (VInt (Z.of_nat (length activities))) ∧
  data !! "reference_activity_id" = Some (VStr activity_id) ∧
  data !! "reference_position" = None ∧
  data !! "activities_before" = None ∧
  data !! "activities_after" = None.

(** Sample activities. *)
Definition sample (i d : string) : Activity :=
  {| id := i; name := None; type := Some "Ride"; start_date_local := d;
     distance := None; moving_time := None; icu_training_load := None;
     average_watts := None; average_heartrate := None |}.
Definition three_days : list Activity :=
  [sample "a3" "2024-03-03T08:00:00"; sample "a1" "2024-03-01T08:00:00";
   sample "a2" "2024-03-02T08:00:00"].
Definition twice_listed : list Activity :=
  [sample "a1" "2024-03-01T08:00:00"; sample "a1" "2024-03-02T08:00:00"].

End Activities.

(* ===================================================================== *)
(** * tools/wellness.py *)
(* ===================================================================== *)

Module Wellness.

(** Modelled from the spec: the wellness record of the API client
    (models.py), with the attributes read by [get_wellness_data], by the
    training-load blocks and by [update_wellness]. *)
Record Wellness := {
  id : string;
  weight : option Q;
  resting_hr : option Z;
  hrv : option Q;
  hrv_sdnn : option Q;
  sleep_secs : option Z;
  sleep_quality : option Z;
  sleep_score : option Q;
  avg_sleeping_hr : option Q;
  fatigue : option Z;
  soreness : option Z;
  stress : option Z;
  mood : option Z;
  motivation : option Z;
  readiness : option Q;
  body_fat : option Q;
  steps : option Z;
  kcal_consumed : option Z;
  hydration_volume : option Q;
  comments : option string;
  ctl : option Q;
  atl : option Q;
  tsb : option Q;
  ramp_rate : option Q;
}.

(** [if x: d[k] = round(x, ndigits)]. *)
Definition set_rounded (x : option Q) (k : string) (ndigits : Z) (d : dict) : dict :=
  match x with
  | Some q => set_if (truthy_num (Some q)) k (VNum (py_round q ndigits)) d
  | None => d
  end.

(** [get_wellness_data], the block "Training load" of the loop over the
    records: the [training] dict, and [day_data] after the block. *)
Definition data_training (record : Wellness) : dict :=
  set_rounded (tsb record) "tsb" 1
    (set_rounded (atl record) "atl" 1
       (set_rounded (ctl record) "ctl" 1 ∅)).

Definition data_training_block (record : Wellness) (day_data : dict) : dict :=
  let training := data_training record in
  set_if (negb (dict_empty training)) "training" (VDict training) day_data.

(** [get_wellness_for_date], the block "Training load": the [training]
    dict, and [wellness_data] after the block. *)
Definition for_date_training (wellness : Wellness) : dict :=
  set_rounded (ramp_rate wellness) "ramp_rate" 1
    (set_rounded (tsb wellness) "tsb" 1
       (set_rounded (atl wellness) "atl" 1
          (set_rounded (ctl wellness) "ctl" 1 ∅))).

Definition for_date_training_block (wellness : Wellness) (wellness_data : dict)
    : dict :=
  let training := for_date_training wellness in
  set_if (negb (dict_empty training)) "training" (VDict training) wellness_data.

(** [get_wellness_data], the loop over the records: [day_data]. *)
Definition day_data (record : Wellness) : dict :=
  let day_data : dict := {["date" := VStr (id record)]} in
  let sleep : dict :=
    set_if (truthy_int (sleep_secs record)) "duration_seconds"
      (of_opt VInt (sleep_secs record)) ∅ in
  let sleep := set_if (truthy_int (sleep_quality record)) "quality"
                 (of_opt VInt (sleep_quality record)) sleep in
  let sleep := set_rounded (sleep_score record) "score" 0 sleep in
  let sleep := set_rounded (avg_sleeping_hr record) "avg_sleeping_hr" 0 sleep in
  let day_data := set_if (negb (dict_empty sleep)) "sleep" (VDict sleep) day_data in
  let heart : dict := set_rounded (hrv record) "hrv_rmssd" 1 ∅ in
  let heart := set_rounded (hrv_sdnn record) "hrv_sdnn" 1 heart in
  let heart := set_if (truthy_int (resting_hr record)) "resting_hr"
                 (of_opt VInt (resting_hr record)) heart in
  let day_data := set_if (negb (dict_empty heart)) "heart" (VDict heart) day_data in
  let subjective : dict :=
    set_if (truthy_int (fatigue record)) "fatigue"
      (of_opt VInt (fatigue record)) ∅ in
  let subjective := set_if (truthy_int (soreness record)) "soreness"
                      (of_opt VInt (soreness record)) subjective in
  let subjective := set_if (truthy_int (stress record)) "stress"
                      (of_opt VInt (stress record)) subjective in
  let subjective := set_if (truthy_int (mood record)) "mood"
                      (of_opt VInt (mood record)) subjective in
  let subjective := set_if (truthy_int (motivation record)) "motivation"
                      (of_opt VInt (motivation record)) subjective in
  let day_data := set_if (negb (dict_empty subjective)) "subjective"
                    (VDict subjective) day_data in
  let body : dict :=
    set_if (truthy_num (weight record)) "weight_kg"
      (of_opt VNum (weight record)) ∅ in
  let body := set_rounded (body_fat record) "body_fat_percent" 1 body in
  let day_data := set_if (negb (dict_empty body)) "body" (VDict body) day_data in
  let day_data := data_training_block record day_data in
  let other : dict :=
    set_if (truthy_int (steps record)) "steps" (of_opt VInt (steps record)) ∅ in
  let other := set_if (truthy_int (kcal_consumed record)) "calories_consumed"
                 (of_opt VInt (kcal_consumed record)) other in
  let other := set_rounded (hydration_volume record) "hydration_liters" 1 other in
  let other := set_rounded (readiness record) "readiness" 0 other in
  let day_data := set_if (negb (dict_empty other)) "other" (VDict other) day_data in
  set_if (truthy_str (comments record)) "comments"
    (of_opt VStr (comments record)) day_data.

(** [values[0]] and [values[-1]] of a list of at least two values. *)
Definition trend_ends {A} (values : list A) : option (A * A) :=
  match values with
  | current :: next :: rest => Some (current, List.last rest next)
  | _ => None
  end.

(** [get_wellness_data], the trends over the sorted records. *)
Definition trends (wellness_records : list Wellness) : dict :=
  if (1 <? length wellness_records)%nat then
    let trends : dict := ∅ in
    let trends :=
      match trend_ends (omap hrv wellness_records) with
      | Some (current, oldest) =>
          <["hrv" := VDict {[ "current" := VNum (py_round current 1);
                              "change" := VNum (py_round (fsub current oldest) 1) ]}]>
            trends
      | None => trends
      end in
    let trends :=
      match trend_ends (omap resting_hr wellness_records) with
      | Some (current, oldest) =>
          <["resting_hr" := VDict {[ "current" := VInt current;
                                     "change" := VInt (current - oldest) ]}]> trends
      | None => trends
      end in
    let sleep_values := omap sleep_quality wellness_records in
    let trends :=
      if (2 <=? length sleep_values)%nat then
        <["avg_sleep_quality" :=
            VNum (py_round (fdiv (inject_Z (foldr Z.add 0 sleep_values))
                              (inject_Z (Z.of_nat (length sleep_values)))) 1)]> trends
      else trends in
    match trend_ends (omap weight wellness_records) with
    | Some (current, oldest) =>
        <["weight" := VDict {[ "current" := VNum current;
                               "change" := VNum (py_round (fsub current oldest) 1) ]}]>
          trends
    | None => trends
    end
  else ∅.

(** [wellness_records.sort(key=lambda x: x.id, reverse=True)]: the list is
    reversed, sorted by the stable sort, and reversed again, so that
    records of equal id keep their order. *)
Definition sorted_records (wellness_records : list Wellness) : list Wellness :=
  reverse (sort_by id (reverse wellness_records)).

(** The envelope of [get_wellness_data] once the records are fetched. *)
Definition wellness_response (days_back : Z) (wellness_records : list Wellness)
    : Envelope :=
  match wellness_records with
  | [] =>
      build_response
        (VDict {[ "wellness_data" := VList []; "count" := VInt 0 ]})
        None
        (Some {[ "message" := VStr ("No wellness data found for the last "
                   +:+ fmt_d days_back +:+ " days") ]})
        None
  | _ =>
      let wellness_records := sorted_records wellness_records in
      let wellness_data := day_data <$> wellness_records in
      let trends := trends wellness_records in
      let result_data : dict :=
        {[ "wellness_data" := VList (VDict <$> wellness_data);
           "count" := VInt (Z.of_nat (length wellness_data)) ]} in
      let result_data :=
        set_if (negb (dict_empty trends)) "trends" (VDict trends) result_data in
      build_response (VDict result_data) None None (Some "wellness_data")
  end.

(** [get_wellness_data(days_back, ctx)].  [today] is
    [datetime.now().strftime("%Y-%m-%d")], the second reading of the clock;
    [remote oldest newest] is the answer of the API to
    [client.get_wellness(oldest=oldest, newest=newest)]. *)
Definition get_wellness_data (rt : Runtime) (today : exn + string)
    (remote : string → string → exn + list Wellness)
    (days_back : Z) (ctx : option ICUConfig) : tool Envelope :=
  config ← get_config ctx;
  tool_try None internal_error
    (oldest ← lift (days_ago rt days_back);
     newest ← lift today;
     with_client
       (wellness_records ← request "get_wellness" (remote oldest newest);
        mret (wellness_response days_back wellness_records))).

(** The optional arguments of [update_wellness]. *)
Record Update := {
  u_weight : option Q;
  u_resting_hr : option Z;
  u_hrv : option Q;
  u_sleep_secs : option Z;
  u_sleep_quality : option Z;
  u_fatigue : option Z;
  u_soreness : option Z;
  u_stress : option Z;
  u_mood : option Z;
  u_motivation : option Z;
  u_readiness : option Q;
  u_comments : option string;
}.

(** [wellness_data], the request body: the date and the provided fields. *)
Definition update_body (date : string) (u : Update) : dict :=
  set_some (u_comments u) "comments" VStr
    (set_some (u_readiness u) "readiness" VNum
       (set_some (u_motivation u) "motivation" VInt
          (set_some (u_mood u) "mood" VInt
             (set_some (u_stress u) "stress" VInt
                (set_some (u_soreness u) "soreness" VInt
                   (set_some (u_fatigue u) "fatigue" VInt
                      (set_some (u_sleep_quality u) "sleepQuality" VInt
                         (set_some (u_sleep_secs u) "sleepSecs" VInt
                            (set_some (u_hrv u) "hrv" VNum
                               (set_some (u_resting_hr u) "restingHR" VInt
                                  (set_some (u_weight u) "weight" VNum
                                     {["id" := VStr date]}))))))))))).

(** [result_data] of [update_wellness]. *)
Definition update_result (date : string) (wellness : Wellness) : dict :=
  let r : dict := {["date" := VStr date]} in
  let r := set_if (truthy_num (weight wellness)) "weight_kg"
             (of_opt VNum (weight wellness)) r in
  let r := set_if (truthy_int (resting_hr wellness)) "resting_hr"
             (of_opt VInt (resting_hr wellness)) r in
  let r := set_rounded (hrv wellness) "hrv_rmssd" 1 r in
  let r := set_if (truthy_int (sleep_secs wellness)) "sleep_duration_seconds"
             (of_opt VInt (sleep_secs wellness)) r in
  let r := set_if (truthy_int (sleep_quality wellness)) "sleep_quality"
             (of_opt VInt (sleep_quality wellness)) r in
  let r := set_if (truthy_int (fatigue wellness)) "fatigue"
             (of_opt VInt (fatigue wellness)) r in
  let r := set_if (truthy_int (soreness wellness)) "soreness"
             (of_opt VInt (soreness wellness)) r in
  let r := set_if (truthy_int (stress wellness)) "stress"
             (of_opt VInt (stress wellness)) r in
  let r := set_if (truthy_int (mood wellness)) "mood"
             (of_opt VInt (mood wellness)) r in
  let r := set_if (truthy_int (motivation wellness)) "motivation"
             (of_opt VInt (motivation wellness)) r in
  let r := set_rounded (readiness wellness) "readiness" 0 r in
  set_if (truthy_str (comments wellness)) "comments"
    (of_opt VStr (comments wellness)) r.

(** [update_wellness(date, ..., ctx)].  [remote body] is the answer of the
    API to [client.update_wellness(wellness_data)]. *)
Definition update_wellness (rt : Runtime)
    (remote : dict → exn + Wellness)
    (date : string) (u : Update) (ctx : option ICUConfig) : tool Envelope :=
  config ← get_config ctx;
  if negb (strptime_ok rt date) then
    mret (build_error_response
            "Invalid date format. Please use YYYY-MM-DD format."
            "validation_error" None)
  else
    tool_try None internal_error
      (let wellness_data := update_body date u in
       if (size wellness_data =? 1)%nat then
         mret (build_error_response
                 "No wellness data provided. Please specify at least one metric to update."
                 "validation_error" None)
       else
         with_client
           (wellness ← request "update_wellness" (remote wellness_data);
            mret (build_response (VDict (update_result date wellness))
                    None
                    (Some {[ "message" :=
                      VStr ("Successfully updated wellness for " +:+ date) ]})
                    (Some "update_wellness")))).

(** An update call that supplies no field. *)
Definition nothing : Update :=
  {| u_weight := None; u_resting_hr := None; u_hrv := None;
     u_sleep_secs := None; u_sleep_quality := None; u_fatigue := None;
     u_soreness := None; u_stress := None; u_mood := None;
     u_motivation := None; u_readiness := None; u_comments := None |}.

(** An update call that supplies the weight only. *)
Definition weighed (w : Q) : Update :=
  {| u_weight := Some w; u_resting_hr := None; u_hrv := None;
     u_sleep_secs := None; u_sleep_quality := None; u_fatigue := None;
     u_soreness := None; u_stress := None; u_mood := None;
     u_motivation := None; u_readiness := None; u_comments := None |}.

(** The training-load attributes, by the key each is written under. *)
Definition training_fields : list (string * (Wellness → option Q)) :=
  [("ctl", ctl); ("atl", atl); ("tsb", tsb); ("ramp_rate", ramp_rate)].
Definition daily_training_fields : list (string * (Wellness → option Q)) :=
  [("ctl", ctl); ("atl", atl); ("tsb", tsb)].

(** Each of [fields] is in the training dict of [record] exactly when its
    upstream value is truthy, and then holds it rounded to one decimal. *)
Definition included_iff_truthy (training_of : Wellness → dict)
    (fields : list (string * (Wellness → option Q))) (record : Wellness) : Prop :=
  ∀ k get, (k, get) ∈ fields →
    (is_Some (training_of record !! k) ↔ truthy_num (get record) = true) ∧
    (∀ v, training_of record !! k = Some v →
       ∃ q, get record = Some q ∧ v = VNum (py_round q 1)).

(** A wellness record of a day with the given training load and nothing
    else recorded. *)
Definition day (d : string) (c a t r : option Q) : Wellness :=
  {| id := d; weight := None; resting_hr := None; hrv := None;
     hrv_sdnn := None; sleep_secs := None; sleep_quality := None;
     sleep_score := None; avg_sleeping_hr := None; fatigue := None;
     soreness := None; stress := None; mood := None; motivation := None;
     readiness := None; body_fat := None; steps := None;
     kcal_consumed := None; hydration_volume := None; comments := None;
     ctl := c; atl := a; tsb := t; ramp_rate := r |}.

(** The same record with another form value. *)
Definition with_tsb (t : option Q) (w : Wellness) : Wellness :=
  {| id := id w; weight := weight w; resting_hr := resting_hr w; hrv := hrv w;
     hrv_sdnn := hrv_sdnn w; sleep_secs := sleep_secs w;
     sleep_quality := sleep_quality w; sleep_score := sleep_score w;
     avg_sleeping_hr := avg_sleeping_hr w;
     fatigue := fatigue w; soreness := soreness w; stress := stress w;
     mood := mood w; motivation := motivation w; readiness := readiness w;
     body_fat := body_fat w; steps := steps w;
     kcal_consumed := kcal_consumed w; hydration_volume := hydration_volume w;
     comments := comments w;
     ctl := ctl w; atl := atl w; tsb := t; ramp_rate := ramp_rate w |}.

End Wellness.

(* ===================================================================== *)
(** * tools/gear.py *)
(* ===================================================================== *)

Module Gear.

(** Modelled from the spec: a gear item of the API client (models.py). *)
Record Gear := {
  id : string;
  name : option string;
  gear_type : option string;
  active : option bool;
  primary : option bool;
  brand : option string;
  model : option string;
  distance : option Q;
  moving_time : option Z;
  activity_count : option Z;
}.

(** The optional arguments of [update_gear]. *)
Record Update := {
  u_name : option string;
  u_gear_type : option string;
  u_brand : option string;
  u_model : option string;
  u_active : option bool;
  u_primary : option bool;
}.

(** [gear_data], the request body: the provided fields. *)
Definition update_body (u : Update) : dict :=
  set_some (u_primary u) "primary" VBool
    (set_some (u_active u) "active" VBool
       (set_some (u_model u) "model" VStr
          (set_some (u_brand u) "brand" VStr
             (set_some (u_gear_type u) "gear_type" VStr
                (set_some (u_name u) "name" VStr ∅))))).

(** [usage], the statistics of a gear item. *)
Definition usage (gear : Gear) : dict :=
  let usage : dict :=
    set_some (distance gear) "total_distance_km"
      (λ d, VNum (py_round (fdiv d (float_of_int 1000)) 2)) ∅ in
  let usage :=
    set_some (moving_time gear) "total_time"
      (λ t, VStr (fmt_d (t `div` 3600) +:+ "h "
                  +:+ fmt_d ((t `mod` 3600) `div` 60) +:+ "m")) usage in
  set_some (activity_count gear) "activity_count" VInt usage.

(** [result] of [update_gear]. *)
Definition update_result (gear : Gear) : dict :=
  let result : dict :=
    {[ "id" := VStr (id gear);
       "name" := of_opt VStr (name gear);
       "type" := of_opt VStr (gear_type gear);
       "active" := of_opt VBool (active gear);
       "primary" := of_opt VBool (primary gear) ]} in
  let result := set_if (truthy_str (brand gear)) "brand"
                  (of_opt VStr (brand gear)) result in
  let result := set_if (truthy_str (model gear)) "model"
                  (of_opt VStr (model gear)) result in
  set_if (bool_decide (is_Some (distance gear) ∨ is_Some (moving_time gear)))
    "usage" (VDict (usage gear)) result.

(** [update_gear(gear_id, ..., ctx)].  The client is constructed first; the
    fields are collected and checked inside its [async with] block. *)
Definition update_gear (remote : string → dict → exn + Gear)
    (gear_id : string) (u : Update) (ctx : option ICUConfig) : tool Envelope :=
  config ← get_config ctx;
  tool_try None unexpected_error
    (with_client
       (let gear_data := update_body u in
        if dict_empty gear_data then
          mret (build_error_response "No fields provided to update"
                  "validation_error" None)
        else
          gear ← request "update_gear" (remote gear_id gear_data);
          mret (build_response (VDict (update_result gear)) None
                  (Some {[ "type" := VStr "gear_updated";
                           "message" := VStr "Gear item updated successfully" ]})
                  None))).

(** An update call that supplies no field, and one that renames. *)
Definition no_fields : Update :=
  {| u_name := None; u_gear_type := None; u_brand := None; u_model := None;
     u_active := None; u_primary := None |}.
Definition renamed (n : string) : Update :=
  {| u_name := Some n; u_gear_type := None; u_brand := None; u_model := None;
     u_active := None; u_primary := None |}.

End Gear.

(* ===================================================================== *)
(** * tools/athlete.py *)
(* ===================================================================== *)

Module Athlete.

(** Modelled from the spec: the [Athlete] record of the API client
    (models.py), restricted to the attributes the analysis reads. *)
Record Athlete := {
  name : option string;
  ctl : option Q;
  atl : option Q;
  tsb : option Q;
  ramp_rate : option Q;
}.

(** [get_athlete_profile], the [if athlete.tsb is not None:] ladder. *)
Definition profile_form (tsb : Q) (analysis : dict) : dict :=
  if Qgtb tsb 20 then
    <["form_description" := VStr "Very fresh - good for racing"]>
      (<["form_status" := VStr "very_fresh"]> analysis)
  else if Qgtb tsb 5 then
    <["form_description" := VStr "Recovered and ready for hard training"]>
      (<["form_status" := VStr "recovered"]> analysis)
  else if Qgtb tsb (-10) then
    <["form_description" := VStr "Optimal zone - productive training possible"]>
      (<["form_status" := VStr "optimal"]> analysis)
  else if Qgtb tsb (-30) then
    <["form_description" := VStr "Accumulating fatigue - recovery may be needed"]>
      (<["form_status" := VStr "fatigued"]> analysis)
  else
    <["form_description" := VStr "High fatigue - prioritize recovery"]>
      (<["form_status" := VStr "very_fatigued"]> analysis).

(** [get_athlete_profile], the [if athlete.ramp_rate is not None:] ladder. *)
Definition profile_ramp (ramp_rate : Q) (analysis : dict) : dict :=
  if Qgtb ramp_rate 8 then
    <["ramp_rate_warning" := VStr "Fitness increasing too fast - reduce training load"]>
      (<["ramp_rate_status" := VStr "high_risk"]> analysis)
  else if Qgtb ramp_rate 5 then
    <["ramp_rate_warning" := VStr "Fitness increasing rapidly - monitor fatigue closely"]>
      (<["ramp_rate_status" := VStr "caution"]> analysis)
  else if Qgtb ramp_rate 0 then
    <["ramp_rate_description" := VStr "Sustainable fitness gain"]>
      (<["ramp_rate_status" := VStr "good"]> analysis)
  else if Qgtb ramp_rate (-5) then
    <["ramp_rate_description" := VStr "Fitness slightly declining (taper/recovery)"]>
      (<["ramp_rate_status" := VStr "declining"]> analysis)
  else
    <["ramp_rate_description" := VStr "Fitness declining significantly"]>
      (<["ramp_rate_status" := VStr "declining_significantly"]> analysis).

(** The [analysis] dict of [get_athlete_profile]. *)
Definition profile_analysis (athlete : Athlete) : dict :=
  let analysis : dict := ∅ in
  let analysis :=
    match tsb athlete with Some t => profile_form t analysis | None => analysis end in
  match ramp_rate athlete with
  | Some r => profile_ramp r analysis
  | None => analysis
  end.

(** [get_fitness_summary], the TSB interpretation ladder. *)
Definition summary_form (tsb : Q) (analysis : dict) : dict :=
  if Qgtb tsb 20 then
    <["form_interpretation" := VStr "You're very fresh - good for racing!"]>
      (<["form_status" := VStr "very_fresh"]> analysis)
  else if Qgtb tsb 5 then
    <["form_interpretation" := VStr "You're recovered and ready for hard training"]>
      (<["form_status" := VStr "recovered"]> analysis)
  else if Qgtb tsb (-10) then
    <["form_interpretation" := VStr "Optimal zone - productive training possible"]>
      (<["form_status" := VStr "optimal"]> analysis)
  else if Qgtb tsb (-30) then
    <["form_interpretation" := VStr "You're accumulating fatigue - recovery may be needed"]>
      (<["form_status" := VStr "fatigued"]> analysis)
  else
    <["form_interpretation" := VStr "High fatigue - prioritize recovery"]>
      (<["form_status" := VStr "very_fatigued"]> analysis).

(** [get_fitness_summary], the ramp rate interpretation ladder. *)
Definition summary_ramp (ramp_rate : Q) (analysis : dict) : dict :=
  if Qgtb ramp_rate 8 then
    <["ramp_rate_warning" := VStr "Reduce training load to avoid overtraining"]>
      (<["ramp_rate_interpretation" := VStr "Fitness increasing too fast"]>
         (<["ramp_rate_status" := VStr "high_risk"]> analysis))
  else if Qgtb ramp_rate 5 then
    <["ramp_rate_warning" := VStr "Monitor fatigue and recovery closely"]>
      (<["ramp_rate_interpretation" := VStr "Fitness increasing rapidly"]>
         (<["ramp_rate_status" := VStr "caution"]> analysis))
  else if Qgtb ramp_rate 0 then
    <["ramp_rate_interpretation" := VStr "Sustainable fitness gain"]>
      (<["ramp_rate_status" := VStr "good"]> analysis)
  else if Qgtb ramp_rate (-5) then
    <["ramp_rate_interpretation" := VStr "Fitness slightly declining (taper/recovery)"]>
      (<["ramp_rate_status" := VStr "declining"]> analysis)
  else
    <["ramp_rate_interpretation" := VStr "Fitness declining significantly"]>
      (<["ramp_rate_status" := VStr "declining_significantly"]> analysis).

(** [get_fitness_summary], the training recommendations. *)
Definition recommendations (tsb ramp_rate : Q) : list string :=
  if Qltb tsb (-30) then
    ["Take an easy week or rest days";
     "Focus on recovery and low-intensity activities"]
  else if Qltb tsb (-10) && Qgtb ramp_rate 5 then
    ["Balance hard training with recovery"; "Consider a recovery week soon"]
  else if Qgtb tsb 5 then
    if Qltb ramp_rate 0 then
      ["Good time to increase training load";
       "Consider adding volume or intensity"]
    else
      ["You're fresh and can handle hard workouts";
       "Good time for races or breakthrough sessions"]
  else
    ["Continue current training approach";
     "Mix hard sessions with recovery days"].

(** The [analysis] dict of [get_fitness_summary]. *)
Definition summary_analysis (athlete : Athlete) : dict :=
  let analysis : dict := ∅ in
  let analysis :=
    match tsb athlete with Some t => summary_form t analysis | None => analysis end in
  let analysis :=
    match ramp_rate athlete with
    | Some r => summary_ramp r analysis
    | None => analysis
    end in
  let recs :=
    match tsb athlete, ramp_rate athlete with
    | Some t, Some r => recommendations t r
    | _, _ => []
    end in
  match recs with
  | [] => analysis
  | _ => <["recommendations" := VList (VStr <$> recs)]> analysis
  end.

(** The five form statuses and the five ramp-rate statuses. *)
Definition form_statuses : list string :=
  ["very_fresh"; "recovered"; "optimal"; "fatigued"; "very_fatigued"].
Definition ramp_statuses : list string :=
  ["high_risk"; "caution"; "good"; "declining"; "declining_significantly"].

(** The ladders as the specification tabulates them, read back from an
    [analysis] dict: the status stored for a value [x], and the range of
    [x] that goes with it. *)
Definition status_is (analysis : dict) (key status : string) : Prop :=
  analysis !! key = Some (VStr status).

Definition form_ladder (analysis : dict) (tsb : Q) : Prop :=
  (status_is analysis "form_status" "very_fresh" ↔ (20 < tsb)%Q) ∧
  (status_is analysis "form_status" "recovered" ↔ (5 < tsb)%Q ∧ (tsb <= 20)%Q) ∧
  (status_is analysis "form_status" "optimal" ↔ (-10 < tsb)%Q ∧ (tsb <= 5)%Q) ∧
  (status_is analysis "form_status" "fatigued" ↔ (-30 < tsb)%Q ∧ (tsb <= -10)%Q) ∧
  (status_is analysis "form_status" "very_fatigued" ↔ (tsb <= -30)%Q) ∧
  (∃ s, s ∈ form_statuses ∧ status_is analysis "form_status" s).

Definition ramp_ladder (analysis : dict) (r : Q) : Prop :=
  (status_is analysis "ramp_rate_status" "high_risk" ↔ (8 < r)%Q) ∧
  (status_is analysis "ramp_rate_status" "caution" ↔ (5 < r)%Q ∧ (r <= 8)%Q) ∧
  (status_is analysis "ramp_rate_status" "good" ↔ (0 < r)%Q ∧ (r <= 5)%Q) ∧
  (status_is analysis "ramp_rate_status" "declining" ↔ (-5 < r)%Q ∧ (r <= 0)%Q) ∧
  (status_is analysis "ramp_rate_status" "declining_significantly"
     ↔ (r <= -5)%Q) ∧
  (∃ s, s ∈ ramp_statuses ∧ status_is analysis "ramp_rate_status" s).

(** The ranges of the two tables. *)
Definition form_ranges (tsb : Q) : list Prop :=
  [(20 < tsb)%Q; (5 < tsb)%Q ∧ (tsb <= 20)%Q; (-10 < tsb)%Q ∧ (tsb <= 5)%Q;
   (-30 < tsb)%Q ∧ (tsb <= -10)%Q; (tsb <= -30)%Q].
Definition ramp_ranges (r : Q) : list Prop :=
  [(8 < r)%Q; (5 < r)%Q ∧ (r <= 8)%Q; (0 < r)%Q ∧ (r <= 5)%Q;
   (-5 < r)%Q ∧ (r <= 0)%Q; (r <= -5)%Q].

(** Exactly one proposition of a list holds: the one at some index [i]. *)
Definition exactly_one (ranges : list Prop) : Prop :=
  ∃ i : nat, ∀ (j : nat) (P : Prop), ranges !! j = Some P → (P ↔ i = j).

(** The boundary values of the two ladders fall into the lower range. *)
Definition form_boundaries (analysis_of : Q → dict) : Prop :=
  status_is (analysis_of 20%Q) "form_status" "recovered" ∧
  status_is (analysis_of 5%Q) "form_status" "optimal" ∧
  status_is (analysis_of (-10)%Q) "form_status" "fatigued" ∧
  status_is (analysis_of (-30)%Q) "form_status" "very_fatigued".

Definition ramp_boundaries (analysis_of : Q → dict) : Prop :=
  status_is (analysis_of 8%Q) "ramp_rate_status" "caution" ∧
  status_is (analysis_of 5%Q) "ramp_rate_status" "good" ∧
  status_is (analysis_of 0%Q) "ramp_rate_status" "declining" ∧
  status_is (analysis_of (-5)%Q) "ramp_rate_status" "declining_significantly".

(** An athlete with the given form and ramp rate. *)
Definition athlete_with (n : option string) (c a : option Q)
    (t r : option Q) : Athlete :=
  {| name := n; ctl := c; atl := a; tsb := t; ramp_rate := r |}.

End Athlete.


(* ===================================================================== *)
(** * Properties *)
(* ===================================================================== *)

(** ** Comparisons *)

Lemma Qgtb_true (x y : Q) : Qgtb x y = true ↔ (y < x)%Q.
Proof.
  unfold Qgtb. rewrite negb_true_iff, <- not_true_iff_false, Qle_bool_iff.
  split; [apply Qnot_le_lt | apply Qlt_not_le].
Qed.

Lemma Qgtb_false (x y : Q) : Qgtb x y = false ↔ (x <= y)%Q.
Proof. unfold Qgtb. by rewrite negb_false_iff, Qle_bool_iff. Qed.

Lemma Qltb_true (x y : Q) : Qltb x y = true ↔ (x < y)%Q.
Proof. apply Qgtb_true. Qed.

Lemma Qltb_false (x y : Q) : Qltb x y = false ↔ (y <= x)%Q.
Proof. apply Qgtb_false. Qed.

(** Case analysis on a comparison, leaving the order fact in the context. *)
Ltac case_Qgtb :=
  match goal with
  | |- context [Qgtb ?x ?y] =>
      let E := fresh "E" in
      destruct (Qgtb x y) eqn:E;
      [apply Qgtb_true in E | apply Qgtb_false in E]
  | |- context [Qltb ?x ?y] =>
      let E := fresh "E" in
      destruct (Qltb x y) eqn:E;
      [apply Qltb_true in E | apply Qltb_false in E]
  end.

(** ** The classifiers of athlete.py *)

Module AthleteFacts.
Import Athlete.

Ltac ladder_cases :=
  repeat case_Qgtb; unfold status_is; simplify_map_eq;
  repeat split; intros; destruct_and?; try discriminate; try lra;
  try (eexists; split; [|reflexivity]; set_solver).

Lemma profile_form_ladder t : form_ladder (profile_form t ∅) t.
Proof. unfold form_ladder, profile_form. ladder_cases. Qed.

Lemma summary_form_ladder t : form_ladder (summary_form t ∅) t.
Proof. unfold form_ladder, summary_form. ladder_cases. Qed.

Lemma profile_ramp_ladder r m : ramp_ladder (profile_ramp r m) r.
Proof. unfold ramp_ladder, profile_ramp. ladder_cases. Qed.

Lemma summary_ramp_ladder r m : ramp_ladder (summary_ramp r m) r.
Proof. unfold ramp_ladder, summary_ramp. ladder_cases. Qed.

(** Each ladder writes its own keys only. *)
Lemma profile_ramp_form_status r m :
  profile_ramp r m !! "form_status" = m !! "form_status".
Proof. unfold profile_ramp. repeat case_Qgtb; by simplify_map_eq. Qed.

Lemma summary_ramp_form_status r m :
  summary_ramp r m !! "form_status" = m !! "form_status".
Proof. unfold summary_ramp. repeat case_Qgtb; by simplify_map_eq. Qed.

Lemma form_ladder_ext (a b : dict) t :
  a !! "form_status" = b !! "form_status" → form_ladder b t → form_ladder a t.
Proof. unfold form_ladder, status_is. by intros ->. Qed.

Lemma ramp_ladder_ext (a b : dict) r :
  a !! "ramp_rate_status" = b !! "ramp_rate_status" →
  ramp_ladder b r → ramp_ladder a r.
Proof. unfold ramp_ladder, status_is. by intros ->. Qed.

Lemma profile_analysis_form n c a t r :
  profile_analysis (athlete_with n c a (Some t) r) !! "form_status"
  = profile_form t ∅ !! "form_status".
Proof.
  unfold profile_analysis, athlete_with; simpl.
  destruct r; [apply profile_ramp_form_status | done].
Qed.

Lemma summary_analysis_lookup (athlete : Athlete) k :
  k ≠ "recommendations" →
  summary_analysis athlete !! k
  = (match ramp_rate athlete with
     | Some r => summary_ramp r
     | None => λ m, m
     end
       (match tsb athlete with
        | Some t => summary_form t ∅
        | None => ∅
        end)) !! k.
Proof.
  intros Hk. unfold summary_analysis.
  destruct (tsb athlete), (ramp_rate athlete); simpl; try done;
    match goal with
    | |- context [recommendations ?t ?r] =>
        destruct (recommendations t r); [done | by rewrite lookup_insert_ne]
    end.
Qed.

Lemma summary_analysis_form n c a t r :
  summary_analysis (athlete_with n c a (Some t) r) !! "form_status"
  = summary_form t ∅ !! "form_status".
Proof.
  rewrite summary_analysis_lookup by done. simpl.
  destruct r; [apply summary_ramp_form_status | done].
Qed.

Lemma form_ranges_partition t : exactly_one (form_ranges t).
Proof.
  unfold exactly_one, form_ranges.
  destruct (Qlt_le_dec 20 t); [exists 0%nat|];
  [|destruct (Qlt_le_dec 5 t); [exists 1%nat|];
  [|destruct (Qlt_le_dec (-10) t); [exists 2%nat|];
  [|destruct (Qlt_le_dec (-30) t); [exists 3%nat|exists 4%nat]]]];
  intros [|[|[|[|[|j]]]]] P HP; simplify_eq/=;
  (split; [intros; exfalso + reflexivity; lra | intros; try discriminate; try lra]).
Qed.

Lemma ramp_ranges_partition r : exactly_one (ramp_ranges r).
Proof.
  unfold exactly_one, ramp_ranges.
  destruct (Qlt_le_dec 8 r); [exists 0%nat|];
  [|destruct (Qlt_le_dec 5 r); [exists 1%nat|];
  [|destruct (Qlt_le_dec 0 r); [exists 2%nat|];
  [|destruct (Qlt_le_dec (-5) r); [exists 3%nat|exists 4%nat]]]];
  intros [|[|[|[|[|j]]]]] P HP; simplify_eq/=;
  (split; [intros; exfalso + reflexivity; lra | intros; try discriminate; try lra]).
Qed.

Lemma profile_analysis_ramp n c a t r :
  profile_analysis (athlete_with n c a t (Some r)) !! "ramp_rate_status"
  = profile_ramp r ∅ !! "ramp_rate_status".
Proof.
  unfold profile_analysis, athlete_with; simpl.
  generalize (match t with Some t0 => profile_form t0 ∅ | None => ∅ end).
  intros m. unfold profile_ramp. repeat case_Qgtb; by simplify_map_eq.
Qed.

Lemma summary_analysis_ramp n c a t r :
  summary_analysis (athlete_with n c a t (Some r)) !! "ramp_rate_status"
  = summary_ramp r ∅ !! "ramp_rate_status".
Proof.
  rewrite summary_analysis_lookup by done. simpl.
  generalize (match t with Some t0 => summary_form t0 ∅ | None => ∅ end).
  intros m. unfold summary_ramp. repeat case_Qgtb; by simplify_map_eq.
Qed.

(** C3: for every form value [tsb], the analysis of [get_athlete_profile]
    and of [get_fitness_summary] stores exactly one of the five form
    statuses, by the ladder very_fresh iff tsb > 20, recovered iff
    5 < tsb <= 20, optimal iff -10 < tsb <= 5, fatigued iff
    -30 < tsb <= -10, very_fatigued iff tsb <= -30; exactly one of the five
    ranges holds of any [tsb], and the boundary values 20, 5, -10 and -30
    fall into the lower range. *)
Theorem form_status_partition (n : option string) (c a r : option Q) (tsb : Q) :
  form_ladder (profile_analysis (athlete_with n c a (Some tsb) r)) tsb ∧
  form_ladder (summary_analysis (athlete_with n c a (Some tsb) r)) tsb ∧
  exactly_one (form_ranges tsb) ∧
  NoDup form_statuses ∧
  form_boundaries (λ t, profile_analysis (athlete_with n c a (Some t) r)) ∧
  form_boundaries (λ t, summary_analysis (athlete_with n c a (Some t) r)).
Proof.
  assert (Hp : ∀ t, form_ladder (profile_analysis (athlete_with n c a (Some t) r)) t).
  { intros t. eapply form_ladder_ext;
      [apply profile_analysis_form | apply profile_form_ladder]. }
  assert (Hs : ∀ t, form_ladder (summary_analysis (athlete_with n c a (Some t) r)) t).
  { intros t. eapply form_ladder_ext;
      [apply summary_analysis_form | apply summary_form_ladder]. }
  split_and!; [apply Hp | apply Hs | apply form_ranges_partition
              | by apply (bool_decide_unpack _) | | ].
  - unfold form_boundaries; split_and!.
    + apply (Hp 20%Q); lra.
    + apply (Hp 5%Q); lra.
    + apply (Hp (-10)%Q); lra.
    + apply (Hp (-30)%Q); lra.
  - unfold form_boundaries; split_and!.
    + apply (Hs 20%Q); lra.
    + apply (Hs 5%Q); lra.
    + apply (Hs (-10)%Q); lra.
    + apply (Hs (-30)%Q); lra.
Qed.

(** C4: for every ramp rate, the analysis of either tool stores exactly one
    of the five ramp-rate statuses, by the ladder high_risk iff
    ramp_rate > 8, caution iff 5 < ramp_rate <= 8, good iff
    0 < ramp_rate <= 5, declining iff -5 < ramp_rate <= 0,
    declining_significantly iff ramp_rate <= -5; exactly one of the five
    ranges holds of any ramp rate, the boundaries 8, 5, 0 and -5 falling
    into the lower range. *)
Theorem ramp_rate_status_partition (n : option string) (c a t : option Q)
    (ramp_rate : Q) :
  ramp_ladder (profile_analysis (athlete_with n c a t (Some ramp_rate))) ramp_rate ∧
  ramp_ladder (summary_analysis (athlete_with n c a t (Some ramp_rate))) ramp_rate ∧
  exactly_one (ramp_ranges ramp_rate) ∧
  NoDup ramp_statuses ∧
  ramp_boundaries (λ r, profile_analysis (athlete_with n c a t (Some r))) ∧
  ramp_boundaries (λ r, summary_analysis (athlete_with n c a t (Some r))).
Proof.
  assert (Hp : ∀ r, ramp_ladder (profile_analysis (athlete_with n c a t (Some r))) r).
  { intros r. eapply ramp_ladder_ext;
      [apply profile_analysis_ramp | apply profile_ramp_ladder]. }
  assert (Hs : ∀ r, ramp_ladder (summary_analysis (athlete_with n c a t (Some r))) r).
  { intros r. eapply ramp_ladder_ext;
      [apply summary_analysis_ramp | apply summary_ramp_ladder]. }
  split_and!; [apply Hp | apply Hs | apply ramp_ranges_partition
              | by apply (bool_decide_unpack _) | | ].
  - unfold ramp_boundaries; split_and!.
    + apply (Hp 8%Q); lra.
    + apply (Hp 5%Q); lra.
    + apply (Hp 0%Q); lra.
    + apply (Hp (-5)%Q); lra.
  - unfold ramp_boundaries; split_and!.
    + apply (Hs 8%Q); lra.
    + apply (Hs 5%Q); lra.
    + apply (Hs 0%Q); lra.
    + apply (Hs (-5)%Q); lra.
Qed.

End AthleteFacts.

(** ** The success envelope *)

Lemma dict_empty_true (d : dict) : dict_empty d = true ↔ d = ∅.
Proof. unfold dict_empty. by rewrite Nat.eqb_eq, map_size_empty_iff. Qed.

Lemma dict_empty_false (d : dict) : dict_empty d = false ↔ d ≠ ∅.
Proof. unfold dict_empty. by rewrite Nat.eqb_neq, map_size_non_empty_iff. Qed.

Lemma set_if_lookup c k v (d : dict) k' :
  set_if c k v d !! k' = if c && bool_decide (k = k') then Some v else d !! k'.
Proof.
  unfold set_if. destruct c; simpl; [|done].
  case_bool_decide; by simplify_map_eq.
Qed.

Lemma set_if_lookup_ne c k v (d : dict) k' :
  k ≠ k' → set_if c k v d !! k' = d !! k'.
Proof. intros. rewrite set_if_lookup. case_bool_decide; [done|]. by rewrite andb_false_r. Qed.

Lemma set_some_lookup_ne {A} (x : option A) k f (d : dict) k' :
  k ≠ k' → set_some x k f d !! k' = d !! k'.
Proof. intros. unfold set_some. destruct x; by simplify_map_eq. Qed.

(** C5: the success envelope holds the [analysis] key exactly when the
    argument is present and non-empty, and then it is the argument itself;
    likewise for [metadata].  An empty mapping is never emitted:
    [build_response({"x": 1}, analysis={})] has no [analysis] key, and
    [build_response({"x": 1}, analysis={"y": 2})] has it, equal to
    [{"y": 2}]. *)
Theorem success_envelope_optional_keys (data : pyval)
    (analysis metadata : option dict) (query_type : option string) :
  let envelope := build_response data analysis metadata query_type in
  envelope !! "data" = Some data ∧
  (∀ v, envelope !! "analysis" = Some v
        ↔ ∃ a, analysis = Some a ∧ a ≠ ∅ ∧ v = VDict a) ∧
  (∀ v, envelope !! "metadata" = Some v
        ↔ ∃ m, metadata = Some m ∧ m ≠ ∅ ∧ v = VDict m) ∧
  envelope !! "analysis" ≠ Some (VDict ∅) ∧
  envelope !! "metadata" ≠ Some (VDict ∅) ∧
  build_response (VDict {["x" := VInt 1]}) (Some ∅) metadata query_type
    !! "analysis" = None ∧
  build_response (VDict {["x" := VInt 1]}) (Some {["y" := VInt 2]}) metadata
    query_type !! "analysis" = Some (VDict {["y" := VInt 2]}).
Proof.
  assert (Ha : ∀ d an md qt v, build_response d an md qt !! "analysis" = Some v
                 ↔ ∃ a, an = Some a ∧ a ≠ ∅ ∧ v = VDict a).
  { intros d an md qt v. unfold build_response.
    rewrite set_some_lookup_ne by done.
    destruct md as [m|]; [rewrite set_if_lookup_ne by done|];
      (destruct an as [a|];
       [ rewrite set_if_lookup; simpl; destruct (dict_empty a) eqn:E; simpl;
         [ apply dict_empty_true in E; simplify_map_eq; naive_solver
         | apply dict_empty_false in E; naive_solver ]
       | simplify_map_eq; naive_solver ]). }
  assert (Hm : ∀ d an md qt v, build_response d an md qt !! "metadata" = Some v
                 ↔ ∃ m, md = Some m ∧ m ≠ ∅ ∧ v = VDict m).
  { intros d an md qt v. unfold build_response.
    rewrite set_some_lookup_ne by done.
    assert (Hno : (match an with
                   | Some a => set_if (negb (dict_empty a)) "analysis" (VDict a)
                                 ({["data" := d]} : dict)
                   | None => {["data" := d]}
                   end) !! "metadata" = None).
    { destruct an; [rewrite set_if_lookup_ne by done|]; by simplify_map_eq. }
    destruct md as [m|].
    - rewrite set_if_lookup; simpl. destruct (dict_empty m) eqn:E; simpl.
      + apply dict_empty_true in E. rewrite Hno. naive_solver.
      + apply dict_empty_false in E. naive_solver.
    - rewrite Hno. naive_solver. }
  intros envelope. split_and!.
  - unfold envelope, build_response. rewrite set_some_lookup_ne by done.
    destruct metadata; [rewrite set_if_lookup_ne by done|];
      (destruct analysis; [rewrite set_if_lookup_ne by done|]); by simplify_map_eq.
  - apply Ha.
  - apply Hm.
  - intros H. apply Ha in H as (a & _ & Hne & [= <-]). done.
  - intros H. apply Hm in H as (m & _ & Hne & [= <-]). done.
  - destruct (build_response _ (Some ∅) metadata query_type !! "analysis")
      as [v|] eqn:E; [|done].
    apply Ha in E as (a & [= <-] & Hne & _). done.
  - apply Ha. eexists. split_and!; [done | | done].
    intros H. apply (f_equal (λ m : dict, m !! "y")) in H. by simplify_map_eq.
Qed.

(** ** The first minimal element *)

Section MinFromFacts.
Context {A : Type} (key : A → Q).

Lemma first_min_snoc l i best x :
  first_min key l i best →
  ∃ i', first_min key (l ++ [x]) i' (if Qltb (key x) (key best) then x else best).
Proof.
  intros (Hi & Hmin & Hfirst).
  destruct (Qltb (key x) (key best)) eqn:E.
  - apply Qltb_true in E. exists (length l). split_and!.
    + by rewrite lookup_app_r, Nat.sub_diag by lia.
    + intros p [Hp | ->%list_elem_of_singleton]%elem_of_app; [|lra].
      specialize (Hmin p Hp). lra.
    + intros j p Hj Hlt. rewrite lookup_app_l in Hj by done.
      assert (key best <= key p)%Q by (eapply Hmin, list_elem_of_lookup_2, Hj).
      lra.
  - apply Qltb_false in E. exists i. split_and!.
    + rewrite lookup_app_l; [done | by eapply lookup_lt_Some].
    + intros p [Hp | ->%list_elem_of_singleton]%elem_of_app; [by apply Hmin | done].
    + intros j p Hj Hlt. apply (Hfirst j p); [|done].
      rewrite lookup_app_l in Hj; [done|].
      apply lookup_lt_Some in Hi. lia.
Qed.

Lemma min_from_first_min pre best l i :
  first_min key pre i best →
  ∃ i', first_min key (pre ++ l) i' (min_from Qltb key best l).
Proof.
  revert pre best i. induction l as [|x l IH]; intros pre best i H; simpl.
  - rewrite app_nil_r. by exists i.
  - destruct (first_min_snoc pre i best x H) as [i' H'].
    destruct (IH _ _ _ H') as [i'' H''].
    exists i''. by rewrite <- app_assoc in H''.
Qed.

Lemma py_min_first_min (l : list A) :
  (0 < length l)%nat →
  ∃ i best, py_min Qltb key l = Some best ∧ first_min key l i best.
Proof.
  destruct l as [|x l]; simpl; [lia | intros _].
  destruct (min_from_first_min [x] x l 0%nat) as [i H].
  - split_and!; [done | | intros; lia].
    intros p ->%list_elem_of_singleton. apply Qle_refl.
  - by exists i, (min_from Qltb key x l).
Qed.
End MinFromFacts.

(** ** The peak-effort matcher *)

Module CurvesFacts.
Import Curves.

Section Matcher.
Context {V : Type} (effort_of : CurvePoint V → dict).

Lemma peak_step_entry data acc seconds label :
  peak_step effort_of data acc (seconds, label)
  = match entry effort_of data seconds with
    | Some v => <[label := v]> acc
    | None => acc
    end.
Proof.
  unfold peak_step, entry. destruct (closest_point data seconds); [|done].
  by destruct (within_tolerance seconds c).
Qed.

Lemma peak_fold_other data kd (acc : dict) label :
  label ∉ kd.*2 →
  foldl (peak_step effort_of data) acc kd !! label = acc !! label.
Proof.
  revert acc. induction kd as [|[t l] kd IH]; intros acc Hnot; cbn [foldl]; [done|].
  rewrite fmap_cons, not_elem_of_cons in Hnot. destruct Hnot as [Hne Hnot].
  rewrite IH by done. rewrite peak_step_entry.
  destruct (entry effort_of data t); [by rewrite lookup_insert_ne | done].
Qed.

Lemma peak_fold_lookup data kd (acc : dict) seconds label :
  NoDup kd.*2 → (seconds, label) ∈ kd →
  foldl (peak_step effort_of data) acc kd !! label
  = match entry effort_of data seconds with
    | Some v => Some v
    | None => acc !! label
    end.
Proof.
  revert acc. induction kd as [|[t l] kd IH]; intros acc Hnd Hin; cbn [foldl].
  - by apply elem_of_nil in Hin.
  - rewrite fmap_cons, NoDup_cons in Hnd. destruct Hnd as [Hfresh Hnd].
    apply elem_of_cons in Hin as [[= <- <-] | Hin].
    + rewrite peak_fold_other by done. rewrite peak_step_entry.
      destruct (entry effort_of data seconds); [by rewrite lookup_insert_eq | done].
    + rewrite IH by done. destruct (entry effort_of data seconds); [done|].
      rewrite peak_step_entry.
      assert (l ≠ label).
      { intros ->. apply Hfresh. apply list_elem_of_fmap. by exists (seconds, label). }
      destruct (entry effort_of data t); [by rewrite lookup_insert_ne | done].
Qed.

Lemma matcher_correct kd (data : list (CurvePoint V)) :
  NoDup kd.*2 → (0 < length data)%nat → matcher_spec effort_of kd data.
Proof.
  intros Hnd Hlen seconds label Hin.
  destruct (py_min_first_min (distance seconds) data Hlen)
    as (i & best & Hbest & Hfirst).
  exists i, best. split_and!; [done | done | | ].
  - unfold peak_efforts. rewrite (peak_fold_lookup data kd ∅ seconds label) by done.
    unfold entry, closest_point. rewrite Hbest, lookup_empty.
    unfold within_tolerance, distance.
    destruct (Qle_bool _ _) eqn:E.
    + apply Qle_bool_iff in E. split; [done | by eexists].
    + split; [by intros [? ?] |]. intros H%Qle_bool_iff. congruence.
  - intros v. unfold peak_efforts.
    rewrite (peak_fold_lookup data kd ∅ seconds label) by done.
    unfold entry, closest_point. rewrite Hbest, lookup_empty.
    destruct (within_tolerance seconds best); congruence.
Qed.
End Matcher.

(** C1: for every non-empty power, heart-rate or pace curve and every
    target of the key-durations table of its tool, the matcher selects the
    point minimizing [abs(point.secs - target_seconds)], the first such in
    the order of the curve; the label is in [peak_efforts] if and only if
    [abs(best.secs - target_seconds) <= target_seconds * 0.1], and what it
    holds is then the effort of that point, never a null value. *)
Theorem peak_efforts_nearest_within_tolerance
    (power_curve hr_curve : list (CurvePoint Z)) (pace_curve : list (CurvePoint Q)) :
  (0 < length power_curve)%nat →
  (0 < length hr_curve)%nat →
  (0 < length pace_curve)%nat →
  matcher_spec power_effort key_durations_power power_curve ∧
  matcher_spec hr_effort key_durations_hr hr_curve ∧
  matcher_spec pace_effort key_durations_pace pace_curve.
Proof.
  intros Hp Hh Hc.
  split_and!; (apply matcher_correct; [by apply (bool_decide_unpack _) | done]).
Qed.

End CurvesFacts.

(** ** Floats *)

Lemma pow2_pos e : (0 < pow2 e)%Q.
Proof. by apply Qpower_0_lt. Qed.

Lemma pow2_plus a b : (pow2 (a + b) == pow2 a * pow2 b)%Q.
Proof. by apply Qpower_plus. Qed.

Lemma pow2_le a b : a ≤ b → (pow2 a <= pow2 b)%Q.
Proof. intros. by apply Qpower_le_compat_l. Qed.

Lemma pow2_lt a b : a < b → (pow2 a < pow2 b)%Q.
Proof. intros. by apply Qpower_lt_compat_l. Qed.

Lemma pow2_lt_inv a b : (pow2 a < pow2 b)%Q → a < b.
Proof. intros. by apply (Qpower_lt_compat_l_inv 2). Qed.

Lemma pow2_Z a : 0 ≤ a → (pow2 a == inject_Z (2 ^ a))%Q.
Proof. intros. unfold pow2. by rewrite Zpower_Qpower. Qed.

Lemma pow2_succ a : (pow2 (a + 1) == 2 * pow2 a)%Q.
Proof. rewrite pow2_plus. change (pow2 1) with 2%Q. ring. Qed.

Lemma pow2_pred a : (pow2 (a - 1) == pow2 a / 2)%Q.
Proof.
  replace a with ((a - 1) + 1) at 2 by lia. rewrite pow2_succ. field.
Qed.

(** [Qlog2 x] is the integer part of the binary logarithm. *)
Lemma Qlog2_spec (x : Q) :
  (0 < x)%Q → (pow2 (Qlog2 x) <= x)%Q ∧ (x < pow2 (Qlog2 x + 1))%Q.
Proof.
  intros Hx. destruct x as [n d]. unfold Qlog2. simpl Qnum. simpl Qden.
  assert (Hn : 0 < n) by (unfold Qlt in Hx; simpl in Hx; lia).
  pose proof (Z.log2_spec n Hn) as [Hn1 Hn2].
  pose proof (Z.log2_spec (Z.pos d) (Pos2Z.is_pos d)) as [Hd1 Hd2].
  pose proof (Z.log2_nonneg n) as Hln. pose proof (Z.log2_nonneg (Z.pos d)) as Hld.
  set (ln := Z.log2 n) in *. set (ld := Z.log2 (Z.pos d)) in *.
  assert (Hx' : (n # d == inject_Z n / inject_Z (Z.pos d))%Q) by apply Qmake_Qdiv.
  assert (Hdpos : (0 < inject_Z (Z.pos d))%Q) by (change 0%Q with (inject_Z 0); rewrite <- Zlt_Qlt; lia).
  assert (Hnpos : (0 < inject_Z n)%Q)
    by (change 0%Q with (inject_Z 0); rewrite <- Zlt_Qlt; lia).
  (* the integer bounds, in Q *)
  assert (Qn1 : (pow2 ln <= inject_Z n)%Q) by (rewrite pow2_Z by done; by rewrite <- Zle_Qle).
  assert (Qn2 : (inject_Z n < pow2 (ln + 1))%Q)
    by (rewrite pow2_Z by lia; by rewrite <- Zlt_Qlt).
  assert (Qd1 : (pow2 ld <= inject_Z (Z.pos d))%Q)
    by (rewrite pow2_Z by done; by rewrite <- Zle_Qle).
  assert (Qd2 : (inject_Z (Z.pos d) < pow2 (ld + 1))%Q)
    by (rewrite pow2_Z by lia; by rewrite <- Zlt_Qlt).
  assert (Hup : (n # d < pow2 (ln - ld + 1))%Q).
  { rewrite Hx'. apply Qlt_shift_div_r; [done|].
    replace (ln - ld + 1) with ((ln + 1) + - ld) by lia.
    rewrite pow2_plus.
    pose proof (pow2_pos (- ld)) as Hp. pose proof (pow2_pos (ln + 1)) as Hq.
    assert (Hone : (1 <= pow2 (- ld) * inject_Z (Z.pos d))%Q).
    { assert (pow2 (- ld) * pow2 ld == 1)%Q as <-.
      { rewrite <- pow2_plus. by replace (- ld + ld) with 0 by lia. }
      apply Qmult_le_l; done. }
    nra. }
  assert (Hlow : (pow2 (ln - ld - 1) < n # d)%Q).
  { rewrite Hx'. apply Qlt_shift_div_l; [done|].
    replace (ln - ld - 1) with (ln + - (ld + 1)) by lia.
    rewrite pow2_plus.
    pose proof (pow2_pos (- (ld + 1))) as Hp. pose proof (pow2_pos ln) as Hq.
    assert (Hone : (pow2 (- (ld + 1)) * inject_Z (Z.pos d) < 1)%Q).
    { assert (pow2 (- (ld + 1)) * pow2 (ld + 1) == 1)%Q as <-.
      { rewrite <- pow2_plus. by replace (- (ld + 1) + (ld + 1)) with 0 by lia. }
      apply Qmult_lt_l; done. }
    nra. }
  destruct (Qle_bool (pow2 (ln - ld)) (n # d)) eqn:E.
  - apply Qle_bool_iff in E. done.
  - split; [by apply Qlt_le_weak|].
    replace (ln - ld - 1 + 1) with (ln - ld) by lia.
    apply Qnot_le_lt. intros H. apply Qle_bool_iff in H. congruence.
Qed.

Lemma Qlog2_unique (x : Q) (l : Z) :
  (pow2 l <= x)%Q → (x < pow2 (l + 1))%Q → Qlog2 x = l.
Proof.
  intros Hlo Hhi.
  assert (Hx : (0 < x)%Q) by (pose proof (pow2_pos l); lra).
  destruct (Qlog2_spec x Hx) as [H1 H2].
  assert (Qlog2 x < l + 1) by (apply pow2_lt_inv; lra).
  assert (l < Qlog2 x + 1) by (apply pow2_lt_inv; lra).
  lia.
Qed.

(** Rounding to the nearest integer. *)
Lemma round_half_even_near (z : Q) :
  (inject_Z (round_half_even z) - z <= 1 # 2)%Q ∧
  (z - inject_Z (round_half_even z) <= 1 # 2)%Q.
Proof.
  unfold round_half_even.
  pose proof (Qfloor_le z) as Hf. pose proof (Qlt_floor z) as Hg.
  rewrite inject_Z_plus in Hg. change (inject_Z 1) with 1%Q in Hg.
  destruct (Qcompare (z - inject_Z (Qfloor z)) (1 # 2)) eqn:E.
  - apply Qeq_alt in E.
    destruct (Z.even (Qfloor z)); [|rewrite inject_Z_plus; change (inject_Z 1) with 1%Q];
      split; lra.
  - apply Qlt_alt in E. split; lra.
  - apply Qgt_alt in E. rewrite inject_Z_plus. change (inject_Z 1) with 1%Q.
    split; lra.
Qed.

Lemma round_half_even_le (z : Q) (n : Z) :
  (z < inject_Z n + (1 # 2))%Q → round_half_even z ≤ n.
Proof.
  intros Hz. destruct (round_half_even_near z) as [H1 _].
  assert (round_half_even z < n + 1); [|lia].
  rewrite Zlt_Qlt, inject_Z_plus. change (inject_Z 1) with 1%Q. lra.
Qed.

Lemma round_half_even_ge (z : Q) (n : Z) :
  (inject_Z n - (1 # 2) < z)%Q → n ≤ round_half_even z.
Proof.
  intros Hz. destruct (round_half_even_near z) as [_ H2].
  assert (n < round_half_even z + 1); [|lia].
  rewrite Zlt_Qlt, inject_Z_plus. change (inject_Z 1) with 1%Q. lra.
Qed.

Lemma Qabs_pos_eq (x : Q) : (0 < x)%Q → Qabs x = x.
Proof.
  destruct x as [n d]. unfold Qlt, Qabs; simpl. intros H.
  f_equal. apply Z.abs_eq. lia.
Qed.

Lemma Qlog2_mono (x y : Q) : (0 < x)%Q → (x <= y)%Q → Qlog2 x ≤ Qlog2 y.
Proof.
  intros Hx Hxy.
  destruct (Qlog2_spec x Hx) as [H1 _].
  destruct (Qlog2_spec y) as [_ H2]; [lra|].
  assert (Qlog2 x < Qlog2 y + 1); [|lia]. apply pow2_lt_inv. lra.
Qed.


Lemma inject_Z_pos (n : Z) : 0 < n → (0 < inject_Z n)%Q.
Proof. intros. change 0%Q with (inject_Z 0). by rewrite <- Zlt_Qlt. Qed.

Lemma repr_pos x M k : repr x M k → (0 < x)%Q.
Proof.
  intros ([HM _] & _ & ->). pose proof (pow2_pos k). pose proof (inject_Z_pos M HM).
  nra.
Qed.

Lemma pow2_53 : (pow2 53 == inject_Z (2 ^ 53))%Q.
Proof. by apply pow2_Z. Qed.

Lemma repr_log2 x M k : repr x M k → Qlog2 x - 52 ≤ k.
Proof.
  intros H. pose proof (repr_pos _ _ _ H) as Hx.
  destruct H as ([HM1 HM2] & _ & Hx').
  destruct (Qlog2_spec x Hx) as [H1 _].
  assert (Qlog2 x < 53 + k); [|lia]. apply pow2_lt_inv.
  rewrite pow2_plus, pow2_53.
  assert (inject_Z M < inject_Z (2 ^ 53))%Q by by rewrite <- Zlt_Qlt.
  pose proof (pow2_pos k). nra.
Qed.

Lemma ulp_exponent_pos (x : Q) :
  (0 < x)%Q → ulp_exponent x = Z.max (Qlog2 x - 52) (-1074).
Proof. intros. unfold ulp_exponent. by rewrite Qabs_pos_eq. Qed.

(** Dividing by the unit of the last place. *)
Lemma scaled_repr x M k e :
  repr x M k → e ≤ k → (x / pow2 e == inject_Z (M * 2 ^ (k - e)))%Q.
Proof.
  intros (_ & _ & ->) He.
  rewrite inject_Z_mult, <- pow2_Z by lia.
  replace k with ((k - e) + e) at 1 by lia. rewrite pow2_plus.
  pose proof (pow2_pos e). field. lra.
Qed.

Lemma round_float_unfold (x : Q) :
  round_float x
  = (inject_Z (round_half_even (x / pow2 (ulp_exponent x))) * pow2 (ulp_exponent x))%Q.
Proof. done. Qed.

(** A number of the format above [x] bounds the double nearest to [x],
    and so does one below. *)
Lemma round_float_le (x b : Q) (M k : Z) :
  (0 < x)%Q → (x <= b)%Q → repr b M k → (round_float x <= b)%Q.
Proof.
  intros Hx Hxb Hb. rewrite round_float_unfold.
  set (e := ulp_exponent x).
  assert (He : e ≤ k).
  { unfold e. rewrite ulp_exponent_pos by done.
    pose proof (repr_log2 _ _ _ Hb). pose proof (Qlog2_mono x b Hx Hxb).
    destruct Hb as (_ & ? & _). lia. }
  pose proof (scaled_repr _ _ _ e Hb He) as Hs.
  pose proof (pow2_pos e) as Hp.
  assert (Hle : (x / pow2 e <= b / pow2 e)%Q).
  { apply Qmult_le_compat_r; [done|]. apply Qinv_le_0_compat. lra. }
  assert (Hr : round_half_even (x / pow2 e) ≤ M * 2 ^ (k - e)).
  { apply round_half_even_le. rewrite <- Hs. lra. }
  rewrite Zle_Qle in Hr. rewrite <- Hs in Hr.
  assert (b == b / pow2 e * pow2 e)%Q as Hb' by (field; lra).
  apply Qle_trans with (b / pow2 e * pow2 e)%Q; [|rewrite <- Hb'; apply Qle_refl].
  apply Qmult_le_compat_r; [done | lra].
Qed.

Lemma round_float_ge (x b : Q) (M k : Z) :
  (b <= x)%Q → repr b M k → (b <= round_float x)%Q.
Proof.
  intros Hbx Hb. pose proof (repr_pos _ _ _ Hb) as Hbpos.
  assert (Hx : (0 < x)%Q) by lra.
  rewrite round_float_unfold. set (e := ulp_exponent x).
  pose proof (pow2_pos e) as Hp.
  destruct (Z_le_gt_dec e k) as [He | He].
  - pose proof (scaled_repr _ _ _ e Hb He) as Hs.
    assert (Hle : (b / pow2 e <= x / pow2 e)%Q).
    { apply Qmult_le_compat_r; [done|]. apply Qinv_le_0_compat. lra. }
    assert (Hr : M * 2 ^ (k - e) ≤ round_half_even (x / pow2 e)).
    { apply round_half_even_ge. rewrite <- Hs. lra. }
    rewrite Zle_Qle in Hr. rewrite <- Hs in Hr.
    assert (b == b / pow2 e * pow2 e)%Q as Hb' by (field; lra).
    apply Qle_trans with (b / pow2 e * pow2 e)%Q; [rewrite <- Hb'; apply Qle_refl|].
    apply Qmult_le_compat_r; [done | lra].
  - (* [b] lies in a lower binade than [x] *)
    assert (Hnormal : e = Qlog2 x - 52).
    { unfold e in *. rewrite ulp_exponent_pos in * by done.
      destruct Hb as (_ & ? & _). lia. }
    destruct (Qlog2_spec x Hx) as [H1 _].
    assert (Hpow : (pow2 (Qlog2 x) / pow2 e == inject_Z (2 ^ 52))%Q).
    { rewrite <- pow2_Z by done. replace (Qlog2 x) with (52 + e) by lia.
      rewrite pow2_plus. field. lra. }
    assert (Hle : (pow2 (Qlog2 x) / pow2 e <= x / pow2 e)%Q).
    { apply Qmult_le_compat_r; [done|]. apply Qinv_le_0_compat. lra. }
    assert (Hr : 2 ^ 52 ≤ round_half_even (x / pow2 e)).
    { apply round_half_even_ge. rewrite <- Hpow. lra. }
    rewrite Zle_Qle in Hr. rewrite <- Hpow in Hr.
    assert (Hb53 : (b < pow2 (Qlog2 x))%Q).
    { destruct Hb as ([HM1 HM2] & _ & ->).
      assert (inject_Z M < inject_Z (2 ^ 53))%Q by by rewrite <- Zlt_Qlt.
      assert (pow2 (53 + k) <= pow2 (Qlog2 x))%Q as Hk by (apply pow2_le; lia).
      rewrite pow2_plus, pow2_53 in Hk. pose proof (pow2_pos k). nra. }
    assert (pow2 (Qlog2 x) == pow2 (Qlog2 x) / pow2 e * pow2 e)%Q as Hp' by (field; lra).
    apply Qle_trans with (pow2 (Qlog2 x)); [lra|].
    apply Qle_trans with (pow2 (Qlog2 x) / pow2 e * pow2 e)%Q;
      [rewrite <- Hp'; apply Qle_refl|].
    apply Qmult_le_compat_r; [done | lra].
Qed.

(** Numbers of the format are doubles: rounding leaves them unchanged. *)
Lemma round_float_repr (x : Q) (M k : Z) : repr x M k → (round_float x == x)%Q.
Proof.
  intros H. pose proof (repr_pos _ _ _ H).
  apply Qle_antisym.
  - eapply round_float_le; [done | apply Qle_refl | done].
  - eapply round_float_ge; [apply Qle_refl | done].
Qed.

Lemma round_float_zero (x : Q) : (x == 0)%Q → (round_float x == 0)%Q.
Proof.
  intros Hx. rewrite round_float_unfold.
  pose proof (pow2_pos (ulp_exponent x)) as Hp.
  remember (pow2 (ulp_exponent x)) as p eqn:Ep. clear Ep.
  assert (Hz : (x / p == 0)%Q) by (rewrite Hx; field; lra).
  assert (round_half_even (x / p) = 0) as ->; [|ring].
  apply Z.le_antisymm.
  - apply round_half_even_le. rewrite Hz. done.
  - apply round_half_even_ge. rewrite Hz. done.
Qed.


Lemma repr_int (n : Z) : 0 < n < 2 ^ 53 → repr (inject_Z n) n 0.
Proof. intros. split_and!; [lia | lia | lia |]. change (pow2 0) with 1%Q. ring. Qed.

Lemma round_float_nonneg (x : Q) : (0 <= x)%Q → (0 <= round_float x)%Q.
Proof.
  intros Hx. rewrite round_float_unfold.
  pose proof (pow2_pos (ulp_exponent x)) as Hp.
  remember (pow2 (ulp_exponent x)) as p eqn:Ep. clear Ep.
  assert (0 ≤ round_half_even (x / p)) as Hr.
  { apply round_half_even_ge. change (inject_Z 0) with 0%Q.
    assert (0 <= x / p)%Q; [|lra].
    apply Qle_shift_div_l; [done | lra]. }
  rewrite Zle_Qle in Hr. change (inject_Z 0) with 0%Q in Hr. nra.
Qed.

Lemma is_float_repr (x : Q) :
  is_float x = true → (0 < x)%Q → ∃ M k, repr x M k.
Proof.
  intros Hf Hx. apply Qeq_bool_iff in Hf. rewrite round_float_unfold in Hf.
  pose proof (ulp_exponent_pos x Hx) as He.
  destruct (Qlog2_spec x Hx) as [_ Hhi].
  pose proof (pow2_pos (ulp_exponent x)) as Hp.
  assert (Hup : (pow2 (Qlog2 x + 1) <= pow2 (ulp_exponent x + 53))%Q)
    by (apply pow2_le; lia).
  rewrite (pow2_plus (ulp_exponent x) 53), pow2_53 in Hup.
  exists (round_half_even (x / pow2 (ulp_exponent x))), (ulp_exponent x).
  unfold repr.
  remember (round_half_even (x / pow2 (ulp_exponent x))) as M eqn:EM. clear EM.
  remember (pow2 (ulp_exponent x)) as p eqn:Ep. clear Ep.
  split_and!.
  - assert (0 < inject_Z M)%Q as HM by nra.
    change 0%Q with (inject_Z 0) in HM. by rewrite <- Zlt_Qlt in HM.
  - rewrite Zlt_Qlt. nra.
  - lia.
  - exact (Qeq_sym _ _ Hf).
Qed.

Lemma Qfloor_inject_eq (x : Q) (n : Z) : (x == inject_Z n)%Q → Qfloor x = n.
Proof. intros ->. apply Qfloor_Z. Qed.

(** A double with a non-negative exponent is an integer. *)
Lemma repr_integer x M k : repr x M k → 0 ≤ k → (x == inject_Z (M * 2 ^ k))%Q.
Proof.
  intros (_ & _ & ->) Hk. by rewrite inject_Z_mult, <- pow2_Z.
Qed.

(** [float(int(x))] is exact. *)
Lemma float_of_floor (x : Q) :
  is_float x = true → (0 <= x)%Q →
  (float_of_int (Qfloor x) == inject_Z (Qfloor x))%Q.
Proof.
  intros Hf Hx. unfold float_of_int.
  destruct (Z.eq_dec (Qfloor x) 0) as [-> | Hne]; [by apply round_float_zero|].
  assert (Hm : 0 < Qfloor x).
  { assert (0 ≤ Qfloor x); [|lia]. change 0 with (Qfloor 0). by apply Qfloor_resp_le. }
  pose proof (Qfloor_le x) as Hfl.
  assert (Hxpos : (0 < x)%Q).
  { pose proof (inject_Z_pos _ Hm). lra. }
  destruct (Qlt_le_dec x (inject_Z (2 ^ 53))) as [Hsmall | Hbig].
  - apply (round_float_repr _ (Qfloor x) 0), repr_int.
    split; [done|]. rewrite Zlt_Qlt. lra.
  - destruct (is_float_repr x Hf Hxpos) as (M & k & Hr).
    assert (Hk : 0 ≤ k).
    { destruct Hr as ([HM1 HM2] & _ & Hx').
      assert (0 < k); [|lia]. apply pow2_lt_inv. change (pow2 0) with 1%Q.
      assert (inject_Z M < inject_Z (2 ^ 53))%Q by by rewrite <- Zlt_Qlt.
      pose proof (pow2_pos k). pose proof (inject_Z_pos M HM1). nra. }
    pose proof (repr_integer _ _ _ Hr Hk) as Hint.
    rewrite (Qfloor_inject_eq _ _ Hint).
    apply (round_float_repr _ M k).
    destruct Hr as (? & ? & _). split; [done|]. split; [done|].
    by rewrite inject_Z_mult, <- pow2_Z.
Qed.

(** The fractional part of a double is a double: the subtraction
    [x - int(x)] is exact. *)
Lemma float_fraction (x : Q) :
  is_float x = true → (0 <= x)%Q →
  let f := (x - inject_Z (Qfloor x))%Q in
  (f == 0)%Q ∨ ∃ M k, repr f M k.
Proof.
  intros Hf Hx f.
  pose proof (Qfloor_le x) as Hfl.
  destruct (Qeq_dec f 0) as [Hz | Hnz]; [by left | right].
  assert (Hfpos : (0 < f)%Q) by (unfold f in *; lra).
  assert (Hm : 0 ≤ Qfloor x).
  { change 0 with (Qfloor 0). by apply Qfloor_resp_le. }
  assert (Hxpos : (0 < x)%Q).
  { assert (0 <= inject_Z (Qfloor x))%Q
      by (change 0%Q with (inject_Z 0); by rewrite <- Zle_Qle).
    unfold f in *. lra. }
  destruct (is_float_repr x Hf Hxpos) as (M & k & Hr).
  assert (Hk : k < 0).
  { destruct (Z_lt_le_dec k 0) as [|Hk]; [done|]. exfalso. apply Hnz.
    pose proof (repr_integer _ _ _ Hr Hk) as Hint.
    unfold f. rewrite (Qfloor_inject_eq _ _ Hint). rewrite Hint. ring. }
  exists (M - Qfloor x * 2 ^ (- k)), k.
  destruct Hr as ([HM1 HM2] & Hk' & Hx').
  assert (Hf' : (f == inject_Z (M - Qfloor x * 2 ^ (- k)) * pow2 k)%Q).
  { unfold f. unfold Zminus. rewrite inject_Z_plus, inject_Z_opp, inject_Z_mult.
    rewrite <- pow2_Z by lia.
    assert (pow2 (- k) * pow2 k == 1)%Q as Hone.
    { rewrite <- pow2_plus. by replace (- k + k) with 0 by lia. }
    assert (inject_Z (Qfloor x) * pow2 (- k) * pow2 k == inject_Z (Qfloor x))%Q
      as E by (rewrite <- Qmult_assoc, Hone; ring).
    nra. }
  pose proof (pow2_pos k) as Hp.
  assert (0 < 2 ^ (- k)) by (apply Z.pow_pos_nonneg; lia).
  split_and!; [| nia | done | done].
  assert (0 < inject_Z (M - Qfloor x * 2 ^ (- k)))%Q as HM by nra.
  change 0%Q with (inject_Z 0) in HM. by rewrite <- Zlt_Qlt in HM.
Qed.

Lemma float_fraction_exact (x : Q) :
  is_float x = true → (0 <= x)%Q →
  (fsub x (float_of_int (Qfloor x)) == x - inject_Z (Qfloor x))%Q.
Proof.
  intros Hf Hx. pose proof (float_of_floor x Hf Hx) as Hm.
  unfold fsub.
  destruct (float_fraction x Hf Hx) as [Hz | (M & k & Hr)].
  - apply Qeq_trans with 0%Q; [apply round_float_zero|]; lra.
  - apply Qeq_trans with (x - float_of_int (Qfloor x))%Q; [|lra].
    apply (round_float_repr _ M k).
    destruct Hr as (? & ? & Hr). split; [done|]. split; [done|]. lra.
Qed.

(** The greatest double below one. *)
Lemma repr_below_one f M k :
  repr f M k → (f < 1)%Q → (f <= 1 - pow2 (-53))%Q.
Proof.
  intros ([HM1 HM2] & Hk & Hf) Hlt.
  pose proof (pow2_pos k) as Hp. pose proof (inject_Z_pos M HM1) as HMq.
  assert (HM2q : (inject_Z M < inject_Z (2 ^ 53))%Q) by by rewrite <- Zlt_Qlt.
  destruct (Z_lt_le_dec k (-53)) as [Hsmall | Hbig].
  - assert (pow2 (53 + k) <= pow2 (-1))%Q as Hle by (apply pow2_le; lia).
    rewrite pow2_plus, pow2_53 in Hle.
    change (pow2 (-1)) with (1 # 2)%Q in Hle.
    assert (pow2 (-53) <= pow2 (-1))%Q as Hle' by (apply pow2_le; lia).
    change (pow2 (-1)) with (1 # 2)%Q in Hle'. nra.
  - assert (Hk0 : k < 0).
    { destruct (Z_lt_le_dec k 0) as [|Hk0]; [done|]. exfalso.
      assert (1 <= pow2 k)%Q by (change 1%Q with (pow2 0); by apply pow2_le).
      assert (1 <= inject_Z M)%Q
        by (change 1%Q with (inject_Z 1); rewrite <- Zle_Qle; lia).
      nra. }
    assert (Hone : (inject_Z (2 ^ (- k)) * pow2 k == 1)%Q).
    { rewrite <- pow2_Z by lia. rewrite <- pow2_plus.
      by replace (- k + k) with 0 by lia. }
    assert (HMlt : M < 2 ^ (- k)).
    { rewrite Zlt_Qlt. nra. }
    assert (HMle : M + 1 ≤ 2 ^ (- k)) by lia.
    rewrite Zle_Qle, inject_Z_plus in HMle. change (inject_Z 1) with 1%Q in HMle.
    assert (pow2 (-53) <= pow2 k)%Q by (apply pow2_le; lia).
    nra.
Qed.

Lemma float_of_int_60 : (float_of_int 60 == 60)%Q.
Proof. by vm_compute. Qed.

(** The product [f * 60] of the fractional part of a double, as the
    machine rounds it: it stays below 60, and between the whole numbers
    around the exact product. *)
Lemma fraction_times_60 (f : Q) :
  (0 <= f)%Q → (f < 1)%Q → ((f == 0)%Q ∨ ∃ M k, repr f M k) →
  let p := fmul f (float_of_int 60) in
  (0 <= p)%Q ∧ (p < 60)%Q ∧
  (inject_Z (Qfloor (f * 60)) <= p)%Q ∧ (p <= inject_Z (Qfloor (f * 60)) + 1)%Q.
Proof.
  intros Hf0 Hf1 Hrepr p.
  pose proof float_of_int_60 as Hc.
  remember (float_of_int 60) as c eqn:Ec. clear Ec.
  unfold fmul in p.
  assert (Hx : (f * c == f * 60)%Q) by (rewrite Hc; reflexivity).
  assert (Hx0 : (0 <= f * c)%Q) by nra.
  pose proof (Qfloor_le (f * 60)) as Hfl. pose proof (Qlt_floor (f * 60)) as Hfu.
  rewrite inject_Z_plus in Hfu. change (inject_Z 1) with 1%Q in Hfu.
  assert (Hk0 : 0 ≤ Qfloor (f * 60)).
  { change 0 with (Qfloor 0). apply Qfloor_resp_le. lra. }
  assert (Hk60 : Qfloor (f * 60) < 60).
  { rewrite Zlt_Qlt. change (inject_Z 60) with 60%Q. lra. }
  assert (Hp0 : (0 <= p)%Q) by by apply round_float_nonneg.
  split; [done|].
  destruct Hrepr as [Hz | (M & k & Hr)].
  - (* f = 0 *)
    assert (Hp : (p == 0)%Q) by (apply round_float_zero; nra).
    assert (Qfloor (f * 60) = 0) as ->.
    { apply Qfloor_inject_eq. change (inject_Z 0) with 0%Q. lra. }
    change (inject_Z 0) with 0%Q. split_and!; lra.
  - pose proof (repr_pos _ _ _ Hr) as Hfpos.
    assert (Hxpos : (0 < f * c)%Q) by nra.
    split_and!.
    + (* below 60 *)
      pose proof (repr_below_one _ _ _ Hr Hf1) as Hbelow.
      destruct (Qlt_le_dec (f * c) 32) as [Hsmall | Hbig].
      * assert (p <= inject_Z 32)%Q; [|change (inject_Z 32) with 32%Q in *; lra].
        apply (round_float_le _ _ 32 0); [done | | by apply repr_int].
        change (inject_Z 32) with 32%Q. lra.
      * assert (Hlog : Qlog2 (f * c) = 5).
        { apply Qlog2_unique.
          - change (pow2 5) with 32%Q. done.
          - change (pow2 (5 + 1)) with 64%Q. lra. }
        assert (He : ulp_exponent (f * c) = -47).
        { rewrite ulp_exponent_pos by done. rewrite Hlog. done. }
        unfold p. rewrite round_float_unfold, He.
        pose proof (pow2_pos (-47)) as Ha.
        assert (Ha1 : (inject_Z (2 ^ 47) * pow2 (-47) == 1)%Q).
        { rewrite <- pow2_Z by done. rewrite <- pow2_plus. done. }
        assert (Ha2 : (pow2 (-53) == pow2 (-47) * (1 # 64))%Q).
        { change (1 # 64)%Q with (pow2 (-6)). by rewrite <- pow2_plus. }
        remember (pow2 (-47)) as a eqn:Ea. clear Ea.
        assert (Hza : (f * c / a * a == f * c)%Q) by (field; lra).
        remember (f * c / a)%Q as z eqn:Ez. clear Ez.
        set (N := 60 * 2 ^ 47).
        assert (HN : (inject_Z N * a == 60)%Q).
        { unfold N. rewrite inject_Z_mult. change (inject_Z 60) with 60%Q. nra. }
        assert (Hr' : round_half_even z ≤ N - 1).
        { apply round_half_even_le.
          unfold Zminus. rewrite inject_Z_plus. change (inject_Z (-1)) with (-1)%Q.
          destruct (Qlt_le_dec z (inject_Z N + -1 + (1 # 2))) as [|Hge]; [done|].
          exfalso.
          assert ((inject_Z N + -1 + (1 # 2)) * a <= z * a)%Q
            by (apply Qmult_le_compat_r; [done | lra]).
          nra. }
        rewrite Zle_Qle in Hr'. unfold Zminus in Hr'.
        rewrite inject_Z_plus in Hr'. change (inject_Z (-1)) with (-1)%Q in Hr'.
        assert (inject_Z (round_half_even z) * a <= (inject_Z N + -1) * a)%Q
          by (apply Qmult_le_compat_r; [done | lra]).
        nra.
    + (* at least the whole number below *)
      destruct (Z.eq_dec (Qfloor (f * 60)) 0) as [-> | Hne]; [done|].
      apply (round_float_ge _ _ (Qfloor (f * 60)) 0); [lra|].
      apply repr_int. lia.
    + (* at most the whole number above *)
      rewrite <- (inject_Z_plus _ 1).
      apply (round_float_le _ _ (Qfloor (f * 60) + 1) 0); [done | |].
      * rewrite inject_Z_plus. change (inject_Z 1) with 1%Q. lra.
      * apply repr_int. lia.
Qed.

(** Rounding depends on the value only. *)
Lemma round_half_even_comp (x y : Q) :
  (x == y)%Q → round_half_even x = round_half_even y.
Proof.
  intros H. unfold round_half_even. rewrite (Qfloor_comp _ _ H).
  assert (Qcompare (x - inject_Z (Qfloor y)) (1 # 2)
          = Qcompare (y - inject_Z (Qfloor y)) (1 # 2)) as ->; [|done].
  apply Qcompare_comp; [by rewrite H | reflexivity].
Qed.

Lemma Qabs_nonzero_pos (x : Q) : ¬ (x == 0)%Q → (0 < Qabs x)%Q.
Proof.
  intros Hx. pose proof (Qabs_nonneg x) as H.
  destruct (Qeq_dec (Qabs x) 0) as [Hz | Hnz]; [|lra].
  exfalso. apply Hx. destruct (Qlt_le_dec x 0) as [Hneg | Hnn].
  - pose proof (Qabs_neg x) as E. lra.
  - pose proof (Qabs_pos x Hnn) as E. lra.
Qed.

Lemma ulp_exponent_comp (x y : Q) :
  ¬ (x == 0)%Q → (x == y)%Q → ulp_exponent x = ulp_exponent y.
Proof.
  intros Hx Hxy. unfold ulp_exponent.
  pose proof (Qabs_nonzero_pos x Hx) as Hpos.
  assert (Hy : (Qabs x == Qabs y)%Q) by by rewrite Hxy.
  destruct (Qlog2_spec (Qabs x) Hpos) as [H1 H2].
  assert (Qlog2 (Qabs y) = Qlog2 (Qabs x)) as ->; [|done].
  apply Qlog2_unique; lra.
Qed.

Lemma round_float_comp (x y : Q) : (x == y)%Q → (round_float x == round_float y)%Q.
Proof.
  intros Hxy. destruct (Qeq_dec x 0) as [Hz | Hnz].
  - rewrite (round_float_zero x Hz). symmetry. apply round_float_zero. lra.
  - rewrite !round_float_unfold.
    rewrite <- (ulp_exponent_comp x y Hnz Hxy).
    pose proof (pow2_pos (ulp_exponent x)) as Hp.
    remember (pow2 (ulp_exponent x)) as p eqn:Ep. clear Ep.
    assert (round_half_even (x / p) = round_half_even (y / p)) as ->; [|reflexivity].
    apply round_half_even_comp. by rewrite Hxy.
Qed.

(** ** Pace formatting *)

Lemma Qfloor_unique (x : Q) (z : Z) :
  (inject_Z z <= x)%Q → (x < inject_Z z + 1)%Q → Qfloor x = z.
Proof.
  intros Hlo Hhi.
  pose proof (Qfloor_le x) as Hf. pose proof (Qlt_floor x) as Hg.
  rewrite inject_Z_plus in Hg. change (inject_Z 1) with 1%Q in Hg.
  assert (z < Qfloor x + 1).
  { rewrite Zlt_Qlt, inject_Z_plus. change (inject_Z 1) with 1%Q. lra. }
  assert (Qfloor x < z + 1).
  { rewrite Zlt_Qlt, inject_Z_plus. change (inject_Z 1) with 1%Q. lra. }
  lia.
Qed.

Lemma py_int_nonneg (x : Q) : (0 <= x)%Q → py_int x = Qfloor x.
Proof.
  destruct x as [n d]. unfold py_int, Qfloor, Qle; simpl. intros H.
  apply Z.quot_div_nonneg; lia.
Qed.

Lemma pace_fraction_bounds (v : Q) :
  (0 <= v - inject_Z (Qfloor v))%Q ∧ (v - inject_Z (Qfloor v) < 1)%Q.
Proof.
  pose proof (Qfloor_le v) as Hf. pose proof (Qlt_floor v) as Hg.
  rewrite inject_Z_plus in Hg. change (inject_Z 1) with 1%Q in Hg.
  split; lra.
Qed.

Lemma fmt_02d_two_digits (s : Z) :
  0 ≤ s ≤ 59 →
  fmt_02d s = String (digit_char (s `div` 10)) (String (digit_char (s `mod` 10)) "").
Proof.
  intros Hs.
  assert (∃ n : nat, (n < 60)%nat ∧ s = Z.of_nat n) as (n & Hn & ->)
    by (exists (Z.to_nat s); lia).
  clear Hs. do 60 (destruct n as [|n]; [vm_compute; reflexivity|]). lia.
Qed.

(** The seconds of a pace, as the tools compute them. *)
Lemma pace_seconds_computed (v : Q) :
  is_float v = true → (0 <= v)%Q →
  let fraction := (v - inject_Z (Qfloor v))%Q in
  (fsub v (float_of_int (pace_minutes v)) == fraction)%Q ∧
  pace_seconds v = Qfloor (round_float (fraction * 60)) ∧
  0 ≤ pace_seconds v ≤ 59 ∧
  Qfloor (fraction * 60) ≤ pace_seconds v ≤ Qfloor (fraction * 60) + 1.
Proof.
  intros Hf Hv fraction.
  assert (Hm : pace_minutes v = Qfloor v) by by apply py_int_nonneg.
  pose proof (float_fraction_exact v Hf Hv) as Hexact. fold fraction in Hexact.
  destruct (pace_fraction_bounds v) as [Hlo Hhi]. fold fraction in Hlo, Hhi.
  pose proof (float_fraction v Hf Hv) as Hrepr. cbv zeta in Hrepr.
  fold fraction in Hrepr.
  destruct (fraction_times_60 fraction Hlo Hhi Hrepr) as (Hp0 & Hp60 & Hpk & Hpk1).
  pose proof float_of_int_60 as Hc.
  assert (Hsame : (fmul (fsub v (float_of_int (pace_minutes v))) (float_of_int 60)
                   == fmul fraction (float_of_int 60))%Q).
  { unfold fmul. apply round_float_comp. rewrite Hm. by rewrite Hexact. }
  assert (Hsame' : (fmul fraction (float_of_int 60) == round_float (fraction * 60))%Q).
  { unfold fmul. apply round_float_comp. by rewrite Hc. }
  assert (Hs : pace_seconds v = Qfloor (fmul fraction (float_of_int 60))).
  { unfold pace_seconds. rewrite py_int_nonneg by (rewrite Hsame; exact Hp0).
    by rewrite Hsame. }
  remember (fmul fraction (float_of_int 60)) as p eqn:Ep. clear Ep.
  pose proof (Qfloor_le p) as Hfl. pose proof (Qlt_floor p) as Hfu.
  rewrite inject_Z_plus in Hfu. change (inject_Z 1) with 1%Q in Hfu.
  assert (H0 : 0 ≤ Qfloor p).
  { change 0 with (Qfloor 0). by apply Qfloor_resp_le. }
  assert (H59 : Qfloor p < 60).
  { rewrite Zlt_Qlt. change (inject_Z 60) with 60%Q. lra. }
  assert (Hk : Qfloor (fraction * 60) < Qfloor p + 1).
  { rewrite Zlt_Qlt, inject_Z_plus. change (inject_Z 1) with 1%Q. lra. }
  assert (Hk1 : Qfloor p < Qfloor (fraction * 60) + 1 + 1).
  { rewrite Zlt_Qlt, !inject_Z_plus. change (inject_Z 1) with 1%Q. lra. }
  split_and!; [by rewrite Hm | rewrite Hs; by apply Qfloor_comp | lia..].
Qed.

Lemma pace_formatted_computed (v : Q) :
  is_float v = true → (0 <= v)%Q → computed_pace v (pace_formatted v).
Proof.
  intros Hf Hv.
  assert (Hm : pace_minutes v = Qfloor v) by by apply py_int_nonneg.
  destruct (pace_seconds_computed v Hf Hv) as (Hexact & Hs & Hrange & Hnear).
  destruct (pace_fraction_bounds v) as [Hlo Hhi].
  assert (Htotal : Qfloor (v * 60)
                   = 60 * Qfloor v + Qfloor ((v - inject_Z (Qfloor v)) * 60)).
  { remember ((v - inject_Z (Qfloor v)) * 60)%Q as x eqn:Hx.
    pose proof (Qfloor_le x) as Hfl. pose proof (Qlt_floor x) as Hfu.
    rewrite inject_Z_plus in Hfu. change (inject_Z 1) with 1%Q in Hfu.
    apply Qfloor_unique.
    - rewrite inject_Z_plus, inject_Z_mult. change (inject_Z 60) with 60%Q.
      subst x. lra.
    - rewrite inject_Z_plus, inject_Z_mult. change (inject_Z 60) with 60%Q.
      subst x. lra. }
  exists (pace_seconds v `div` 10), (pace_seconds v `mod` 10).
  split_and!;
    [clear -Hrange; Z.div_mod_to_equations; lia .. | done | done | done
    | clear; Z.div_mod_to_equations; lia | lia | lia | rewrite Htotal, Hm; lia
    | rewrite Htotal, Hm; lia |].
  unfold pace_formatted. rewrite (fmt_02d_two_digits _ Hrange), Hm. done.
Qed.

Module HistogramFacts.
Import Histogram.

Lemma pace_bin_bounds (bin_item : Bin) :
  formatted_bounds "pace_range" "min_pace_formatted" "max_pace_formatted"
    (pace_bin_data bin_item)
  = Some (VStr (pace_formatted (min bin_item)), VStr (pace_formatted (max bin_item))).
Proof.
  unfold formatted_bounds, pace_bin_data.
  rewrite set_some_lookup_ne by done. by simplify_map_eq.
Qed.

Lemma gap_bin_bounds (bin_item : Bin) :
  formatted_bounds "gap_range" "min_gap_formatted" "max_gap_formatted"
    (gap_bin_data bin_item)
  = Some (VStr (pace_formatted (min bin_item)), VStr (pace_formatted (max bin_item))).
Proof.
  unfold formatted_bounds, gap_bin_data.
  rewrite set_some_lookup_ne by done. by simplify_map_eq.
Qed.

(** C2, as the code has it: for every pace or GAP histogram bin whose
    bounds are non-negative floats, each bound is rendered as
    [f"{minutes}:{seconds_part:02d} /km"].  [minutes] is the bound
    truncated to an integer; the difference [value - minutes] is computed
    without error; [seconds_part] is the float product
    [(value - minutes) * 60] truncated, the product being rounded to the
    nearest double first.  It is a number from 0 to 59, written with two
    digits, and it is the whole number of seconds contained in the
    fraction of a minute or, when the product rounds up to a whole number,
    one more.  The minutes are never rounded up and the seconds are not
    rounded to the nearest: 4.5 gives "4:30 /km", 3.999 gives "3:59 /km"
    where the nearest second is 4:00, and the double 4.766666666666667,
    which lies below 4 minutes 46 seconds, gives "4:46 /km". *)
Theorem pace_bounds_truncated (bin_item : Bin) :
  is_float (min bin_item) = true →
  is_float (max bin_item) = true →
  (0 <= min bin_item)%Q →
  (0 <= max bin_item)%Q →
  bounds_as_computed bin_item ∧
  pace_formatted (float_lit (9 # 2)) = "4:30 /km" ∧
  pace_formatted (float_lit (3999 # 1000)) = "3:59 /km" ∧
  pace_nearest_second (float_lit (3999 # 1000)) = (4, 0) ∧
  pace_formatted (float_lit (286 # 60)) = "4:46 /km".
Proof.
  intros Hfmin Hfmax Hmin Hmax. split_and!; [|by vm_compute..].
  exists (pace_formatted (min bin_item)), (pace_formatted (max bin_item)).
  split_and!; [apply pace_bin_bounds | apply gap_bin_bounds
              | by apply pace_formatted_computed
              | by apply pace_formatted_computed].
Qed.

(** C2, as stated, fails: the seconds are the truncation of the rounded
    float product, not of [(value - minutes) * 60] itself.  For the bin
    whose lower bound is the double nearest to 286/60, printed as
    4.766666666666667, the fraction of a minute times 60 is below 46, its
    truncation is 45, and the tools write "4:46 /km". *)
Lemma pace_seconds_follow_rounded_product :
  is_float (min rounded_bin) = true ∧
  is_float (max rounded_bin) = true ∧
  (0 <= min rounded_bin)%Q ∧
  (0 <= max rounded_bin)%Q ∧
  (min rounded_bin < 286 # 60)%Q ∧
  pace_minutes (min rounded_bin) = 4 ∧
  ((min rounded_bin - 4) * 60 < 46)%Q ∧
  Qfloor ((min rounded_bin - 4) * 60) = 45 ∧
  (fmul (fsub (min rounded_bin) (float_of_int 4)) (float_of_int 60) == 46)%Q ∧
  pace_seconds (min rounded_bin) = 46 ∧
  formatted_bounds "pace_range" "min_pace_formatted" "max_pace_formatted"
    (pace_bin_data rounded_bin) = Some (VStr "4:46 /km", VStr "5:00 /km") ∧
  formatted_bounds "gap_range" "min_gap_formatted" "max_gap_formatted"
    (gap_bin_data rounded_bin) = Some (VStr "4:46 /km", VStr "5:00 /km") ∧
  ¬ bounds_as_stated rounded_bin.
Proof.
  split_and!; try by vm_compute.
  intros (lo & hi & _ & _ & (d1 & d2 & _ & _ & _ & Hs & _) & _).
  vm_compute in Hs. discriminate.
Qed.

End HistogramFacts.

(** ** Sorting by a string key *)

Lemma ascii_compare_refl (c : ascii) : Ascii.compare c c = Eq.
Proof. unfold Ascii.compare. apply N.compare_refl. Qed.

Lemma ascii_compare_trans (a b c : ascii) :
  Ascii.compare a b = Lt → Ascii.compare b c = Lt → Ascii.compare a c = Lt.
Proof.
  unfold Ascii.compare. rewrite !N.compare_lt_iff. apply N.lt_trans.
Qed.

Lemma string_compare_trans (s1 s2 s3 : string) :
  String.compare s1 s2 ≠ Gt → String.compare s2 s3 ≠ Gt →
  String.compare s1 s3 ≠ Gt.
Proof.
  revert s2 s3. induction s1 as [|a s1 IH]; intros [|b s2] [|c s3]; simpl;
    try done.
  destruct (Ascii.compare a b) eqn:Eab; [| |done];
    (destruct (Ascii.compare b c) eqn:Ebc; [| |done]); intros H12 H23.
  - apply Ascii.compare_eq_iff in Eab, Ebc. subst.
    rewrite ascii_compare_refl. by eapply IH.
  - apply Ascii.compare_eq_iff in Eab. subst. by rewrite Ebc.
  - apply Ascii.compare_eq_iff in Ebc. subst. by rewrite Eab.
  - by rewrite (ascii_compare_trans a b c).
Qed.

Lemma string_leb_compare (s1 s2 : string) :
  String.leb s1 s2 = true ↔ String.compare s1 s2 ≠ Gt.
Proof. unfold String.leb. by destruct (String.compare s1 s2). Qed.

Lemma string_leb_trans (s1 s2 s3 : string) :
  String.leb s1 s2 = true → String.leb s2 s3 = true → String.leb s1 s3 = true.
Proof. rewrite !string_leb_compare. apply string_compare_trans. Qed.

Lemma string_ltb_leb (s1 s2 : string) :
  String.ltb s1 s2 = true → String.leb s1 s2 = true.
Proof. unfold String.ltb, String.leb. by destruct (String.compare s1 s2). Qed.

Lemma string_ltb_false_leb (s1 s2 : string) :
  String.ltb s1 s2 = false → String.leb s2 s1 = true.
Proof.
  unfold String.ltb, String.leb. rewrite (String.compare_antisym s1 s2).
  by destruct (String.compare s2 s1).
Qed.

Section SortFacts.
Context {A : Type} (key : A → string).

Lemma insert_by_perm x l : insert_by key x l ≡ₚ x :: l.
Proof.
  induction l as [|y l IH]; simpl; [done|].
  destruct (String.ltb (key y) (key x)); [|done].
  rewrite IH. apply Permutation_swap.
Qed.

Lemma sort_by_perm l : sort_by key l ≡ₚ l.
Proof.
  induction l as [|x l IH]; simpl; [done|].
  rewrite insert_by_perm. by f_equiv.
Qed.

Lemma insert_by_hd y x l :
  key_le key y x → HdRel (key_le key) y l → HdRel (key_le key) y (insert_by key x l).
Proof.
  intros Hyx Hhd. destruct l as [|z l]; simpl; [by constructor|].
  destruct (String.ltb (key z) (key x)); constructor; [|done].
  by inversion Hhd.
Qed.

Lemma insert_by_sorted x l :
  Sorted (key_le key) l → Sorted (key_le key) (insert_by key x l).
Proof.
  induction 1 as [|y l Hs IH Hhd]; simpl; [by repeat constructor|].
  destruct (String.ltb (key y) (key x)) eqn:E.
  - constructor; [done|]. apply insert_by_hd; [|done].
    by apply string_ltb_leb.
  - constructor; [by constructor|]. constructor.
    by apply string_ltb_false_leb.
Qed.

Lemma sort_by_sorted l : StronglySorted (key_le key) (sort_by key l).
Proof.
  apply Sorted_StronglySorted.
  - intros a b c. apply string_leb_trans.
  - induction l as [|x l IH]; simpl; [constructor | by apply insert_by_sorted].
Qed.
End SortFacts.

(** ** The reference-relative positioner *)

Module ActivitiesFacts.
Import Activities.

Ltac item_lookups :=
  unfold activity_item; cbv zeta; rewrite !set_if_lookup_ne by done.

Lemma item_id activity_id ref i a :
  activity_item activity_id ref i a !! "id" = Some (VStr (id a)).
Proof.
  item_lookups. destruct (String.eqb (id a) activity_id); [by simplify_map_eq|].
  destruct ref as [r|]; [|by simplify_map_eq].
  destruct (i <? r)%nat; by simplify_map_eq.
Qed.

Lemma item_reference activity_id ref i a :
  id a = activity_id → reference_item (activity_item activity_id ref i a).
Proof.
  intros H%String.eqb_eq. unfold reference_item.
  split_and!; item_lookups; rewrite H; by simplify_map_eq.
Qed.

Lemma item_before activity_id r i a :
  id a ≠ activity_id → (i < r)%nat →
  before_item r i (activity_item activity_id (Some r) i a).
Proof.
  intros H%String.eqb_neq Hlt%Nat.ltb_lt. unfold before_item.
  split_and!; item_lookups; rewrite H, Hlt; by simplify_map_eq.
Qed.

Lemma item_after activity_id r i a :
  id a ≠ activity_id → ¬ (i < r)%nat →
  after_item r i (activity_item activity_id (Some r) i a).
Proof.
  intros H%String.eqb_neq Hlt%Nat.ltb_nlt. unfold after_item.
  split_and!; item_lookups; rewrite H, Hlt; by simplify_map_eq.
Qed.

Lemma item_unannotated activity_id i a :
  id a ≠ activity_id → unannotated_item (activity_item activity_id None i a).
Proof.
  intros H%String.eqb_neq. unfold unannotated_item.
  split_and!; item_lookups; rewrite H; by simplify_map_eq.
Qed.

Lemma sorted_activities_perm activities :
  sorted_activities activities ≡ₚ activities.
Proof. apply sort_by_perm. Qed.

Lemma sorted_activities_sorted activities :
  StronglySorted date_le (sorted_activities activities).
Proof. apply (sort_by_sorted start_date_local). Qed.

Lemma activities_data_length activity_id activities :
  length (activities_data activity_id activities) = length activities.
Proof.
  unfold activities_data. rewrite length_imap.
  apply Permutation_length, sorted_activities_perm.
Qed.

Lemma find_ref_index_Some activity_id (l : list Activity) r :
  find_ref_index activity_id l = Some r ↔
  (∃ a, l !! r = Some a ∧ id a = activity_id) ∧
  (∀ j a, l !! j = Some a → (j < r)%nat → id a ≠ activity_id).
Proof.
  unfold find_ref_index. split.
  - destruct (list_find _ l) as [[i a]|] eqn:E; [|done]. intros [= <-].
    apply list_find_Some in E as (Hi & Ha & Hfirst). eauto.
  - intros [(a & Hr & Ha) Hfirst].
    assert (list_find (λ a, id a = activity_id) l = Some (r, a)) as ->; [|done].
    apply list_find_Some. eauto.
Qed.

Lemma find_ref_index_None activity_id (l : list Activity) :
  activity_id ∉ id <$> l → find_ref_index activity_id l = None.
Proof.
  intros Hnot. unfold find_ref_index.
  destruct (list_find _ l) as [[i a]|] eqn:E; [|done].
  apply list_find_Some in E as (Hi & Ha & _). exfalso. apply Hnot.
  apply list_elem_of_fmap. exists a. split; [done|].
  by eapply list_elem_of_lookup_2.
Qed.

Lemma find_ref_index_is_Some activity_id (l : list Activity) :
  activity_id ∈ id <$> l → is_Some (find_ref_index activity_id l).
Proof.
  intros (a & -> & Ha)%list_elem_of_fmap. unfold find_ref_index.
  destruct (list_find_elem_of (λ b, id b = id a) l a Ha eq_refl) as [[i b] ->].
  by eexists.
Qed.

(** The positioner in general, whether or not the reference id is listed
    once: the response lists the activities in ascending order of
    [start_date_local]; with [r] the index of the first entry whose id is
    the reference id, the entries before [r] carry position "before" and
    [days_before = r - i], every entry whose id is the reference id
    carries [is_reference = true] and no position field, every other entry
    after [r] carries position "after" and [days_after = i - r], and the
    counts are [r] before, [length - r - 1] after and reference index [r]. *)
Lemma reference_relative_positions (activity_id : string)
    (activities : list Activity) :
  activity_id ∈ id <$> activities →
  positioned activity_id activities.
Proof.
  intros Hin. unfold positioned.
  pose proof (sorted_activities_perm activities) as Hperm.
  assert (Hin' : activity_id ∈ id <$> sorted_activities activities)
    by by rewrite Hperm.
  destruct (find_ref_index_is_Some _ _ Hin') as [r Hr].
  pose proof (proj1 (find_ref_index_Some _ _ _) Hr) as [Href Hfirst].
  exists r. split_and!; [| done | done | done | |].
  - unfold ordered. split_and!; [done | apply sorted_activities_sorted | |
                                 apply activities_data_length].
    unfold result_data. rewrite Hr. by simplify_map_eq.
  - unfold counted. split_and!; unfold result_data; rewrite Hr; simplify_map_eq;
      [done | done |]. by rewrite (Permutation_length Hperm).
  - intros i a item Ha Hitem. unfold activities_data in Hitem.
    rewrite Hr, list_lookup_imap, Ha in Hitem. injection Hitem as <-.
    split_and!.
    + apply item_id.
    + intros Hlt. apply item_before; [|done]. by eapply Hfirst.
    + intros ->. apply item_reference.
      destruct Href as (a' & Ha' & Hid). congruence.
    + apply item_reference.
    + intros Hlt Hne. apply item_after; [done | lia].
Qed.

(** One entry with the reference id: no two places of the list hold it. *)
Lemma one_match_unique {A} (P : A → Prop) `{!∀ x, Decision (P x)} (l : list A) :
  length (filter P l) = 1%nat →
  ∀ i j a b, l !! i = Some a → l !! j = Some b → P a → P b → i = j.
Proof.
  induction l as [|x l IH]; intros Hlen i j a b Hi Hj Pa Pb; [done|].
  destruct (decide (P x)) as [Px | Px].
  - rewrite filter_cons_True in Hlen by done. simpl in Hlen.
    assert (Hnil : filter P l = []) by (apply nil_length_inv; lia).
    destruct i as [|i], j as [|j]; [done | | |]; exfalso.
    + by eapply (filter_nil_not_elem_of P l b), list_elem_of_lookup_2.
    + by eapply (filter_nil_not_elem_of P l a), list_elem_of_lookup_2.
    + by eapply (filter_nil_not_elem_of P l a), list_elem_of_lookup_2.
  - rewrite filter_cons_False in Hlen by done.
    destruct i as [|i]; [simpl in Hi; congruence|].
    destruct j as [|j]; [simpl in Hj; congruence|].
    f_equal. by eapply IH.
Qed.

Lemma one_reference_listed activity_id activities :
  one_reference_entry activity_id activities →
  (0 < length activities)%nat ∧ activity_id ∈ id <$> activities.
Proof.
  unfold one_reference_entry. intros Hlen.
  destruct (filter (λ a, id a = activity_id) activities) as [|a l] eqn:E;
    [done|].
  assert (a ∈ filter (λ a, id a = activity_id) activities) as Ha
    by (rewrite E; set_solver).
  apply list_elem_of_filter in Ha as [Hid Ha]. split.
  - destruct activities; [by apply elem_of_nil in Ha | simpl; lia].
  - apply list_elem_of_fmap. by exists a.
Qed.

(** Ids that identify the activities give one reference entry. *)
Lemma distinct_ids_one_reference activity_id activities :
  NoDup (id <$> activities) → activity_id ∈ id <$> activities →
  one_reference_entry activity_id activities.
Proof.
  unfold one_reference_entry.
  induction activities as [|x l IH]; intros Hnd Hin; [by apply elem_of_nil in Hin|].
  rewrite fmap_cons in Hnd, Hin. apply NoDup_cons in Hnd as [Hfresh Hnd].
  destruct (decide (id x = activity_id)) as [Hx | Hx].
  - rewrite filter_cons_True by done. simpl. f_equal.
    destruct (filter (λ a, id a = activity_id) l) as [|b l'] eqn:E; [done|].
    exfalso. apply Hfresh.
    assert (b ∈ filter (λ a, id a = activity_id) l) as Hb by (rewrite E; set_solver).
    apply list_elem_of_filter in Hb as [Hid Hb].
    apply list_elem_of_fmap. exists b. split; [congruence | done].
  - rewrite filter_cons_False by done. apply IH; [done|].
    apply elem_of_cons in Hin as [Hin | Hin]; [congruence | done].
Qed.

(** C6: for every activity list holding the reference entry, the entry
    with the reference id, the response lists the activities in ascending
    order of [start_date_local] (the order of strings); with [r] the index
    of the reference entry, every entry at an index [i < r] carries
    position "before" and [days_before = r - i], every entry at an index
    [i > r] carries position "after" and [days_after = i - r], the
    reference entry carries [is_reference = true] and no position field,
    and the counts are [r] entries before, [length - r - 1] entries after
    and the zero-based reference index [r]. *)
Theorem positions_relative_to_reference (activity_id : string)
    (activities : list Activity) :
  one_reference_entry activity_id activities →
  (0 < length activities)%nat ∧
  activity_id ∈ id <$> activities ∧
  positioned_as_stated activity_id activities.
Proof.
  intros Hone. destruct (one_reference_listed _ _ Hone) as [Hlen Hin].
  split; [done|]. split; [done|].
  destruct (reference_relative_positions _ _ Hin)
    as (r & Hord & _ & Href & _ & Hcount & Hitems).
  exists r. split_and!; [done | done | done |].
  assert (Hone' : length (filter (λ a, id a = activity_id)
                            (sorted_activities activities)) = 1%nat).
  { unfold one_reference_entry in Hone.
    by rewrite (sorted_activities_perm activities). }
  intros i a item Ha Hitem.
  destruct (Hitems i a item Ha Hitem) as (_ & Hbefore & Hat & _ & Hafter).
  split_and!; [done | done |].
  intros Hlt. apply Hafter; [done|]. intros Hid.
  destruct Href as (ref & Hr & Hrid).
  assert (i = r); [|lia].
  by eapply (one_match_unique _ _ Hone' i r a ref).
Qed.

(** The entry of the reference id must be the only one of its id: when the
    id is listed twice, the later entry is marked as the reference too and
    gets no position "after". *)
Lemma repeated_reference_id_marked_twice :
  (0 < length twice_listed)%nat ∧
  "a1" ∈ id <$> twice_listed ∧
  ¬ one_reference_entry "a1" twice_listed ∧
  ¬ positioned_as_stated "a1" twice_listed.
Proof.
  split_and!; [simpl; lia | set_solver | by vm_compute |].
  intros (r & _ & Href & _ & Hitems).
  destruct r as [|[|r]].
  - destruct (Hitems 1%nat (sample "a1" "2024-03-02T08:00:00")
                (activity_item "a1" (Some 0%nat) 1
                   (sample "a1" "2024-03-02T08:00:00")))
      as (_ & _ & Hafter); [done | done |].
    destruct Hafter as [Hpos _]; [lia|].
    vm_compute in Hpos. discriminate.
  - destruct (Hitems 0%nat (sample "a1" "2024-03-01T08:00:00")
                (activity_item "a1" (Some 0%nat) 0
                   (sample "a1" "2024-03-01T08:00:00")))
      as (Hbefore & _); [done | done |].
    destruct Hbefore as [Hpos _]; [lia|].
    vm_compute in Hpos. discriminate.
  - destruct Href as (a & Ha & _). vm_compute in Ha. discriminate.
Qed.

End ActivitiesFacts.

(** ** The tool boundary *)

Lemma bind_ret {A B} (a : A) (k : A → tool B) : (mret a ≫= k) = k a.
Proof. unfold mbind, mret, tool_bind, tool_ret. by destruct (k a). Qed.

Lemma get_config_Some {B} config (k : ICUConfig → tool B) :
  (get_config (Some config) ≫= k) = k config.
Proof. apply bind_ret. Qed.

Lemma tool_try_outcome suggestions catch_all (body : tool Envelope) :
  tool_try suggestions catch_all body
  = (trace body,
     match body.2 with
     | inr v => inr v
     | inl (ICUAPIError message) =>
         inr (build_error_response message "api_error" suggestions)
     | inl (BaseExceptionOnly name) => inl (BaseExceptionOnly name)
     | inl e => inr (catch_all e)
     end).
Proof.
  destruct body as [t [e|v]]; simpl; [|done].
  destruct e; simpl; by rewrite app_nil_r.
Qed.

Lemma tool_try_trace suggestions catch_all (body : tool Envelope) :
  trace (tool_try suggestions catch_all body) = trace body.
Proof. by rewrite tool_try_outcome. Qed.

Lemma tool_try_returns_or_propagates suggestions catch_all (body : tool Envelope) :
  returns_or_propagates (tool_try suggestions catch_all body).
Proof.
  rewrite tool_try_outcome. unfold returns_or_propagates, escapes, returned, raised.
  destruct body as [t [e|v]]; simpl; [|left; by eexists].
  destruct e; simpl; try (left; by eexists). right. by eexists.
Qed.

Lemma error_response_envelope message kind suggestions :
  error_envelope kind (build_error_response message kind suggestions) ∧
  build_error_response message kind suggestions !! "error" = Some (VStr message).
Proof.
  unfold error_envelope, build_error_response.
  destruct suggestions as [[|s l]|]; split_and!; try (by simplify_map_eq);
    eexists; by simplify_map_eq.
Qed.

Lemma internal_error_envelope e :
  error_envelope "internal_error" (internal_error e) ∧
  internal_error e !! "error" = Some (VStr ("Unexpected error: " +:+ str_exn e)).
Proof. apply error_response_envelope. Qed.

Lemma unexpected_error_envelope e :
  error_envelope "unexpected_error" (unexpected_error e) ∧
  unexpected_error e !! "error" = Some (VStr (str_exn e)).
Proof. apply error_response_envelope. Qed.

Lemma tool_try_handles suggestions catch_all kind t e :
  (∀ e', error_envelope kind (catch_all e')) →
  handles kind (tool_try suggestions catch_all (t, inl e)) e.
Proof.
  intros Hkind. unfold handles, converts, escapes.
  destruct e; simpl; try (eexists; (split; [done|]); try apply Hkind).
  - apply error_response_envelope.
  - done.
Qed.

Lemma dict_empty_insert k v (d : dict) : dict_empty (<[k := v]> d) = false.
Proof. apply dict_empty_false, insert_non_empty. Qed.

Module ToolFacts.
Import Activities.

Lemma get_activities_around_fetched remote activity_id count config activities :
  remote activity_id count = inr activities →
  get_activities_around remote activity_id count (Some config)
  = ([ClientConstructed; Request "get_activities_around"],
     inr (around_response activity_id activities)).
Proof.
  intros Hremote. unfold get_activities_around. rewrite get_config_Some.
  unfold with_client, request, emit, lift. rewrite Hremote. done.
Qed.

(** The entry of an activity that is not the reference, in a list without
    the reference. *)
Lemma item_plain activity_id i a :
  id a ≠ activity_id → plain_entry a (activity_item activity_id None i a).
Proof.
  intros Hne. pose proof (ActivitiesFacts.item_unannotated activity_id i a Hne) as Hun.
  apply String.eqb_neq in Hne.
  unfold plain_entry. split_and!; [.. | done |].
  - apply ActivitiesFacts.item_id.
  - unfold activity_item; cbv zeta. rewrite !set_if_lookup_ne by done.
    rewrite Hne. simplify_map_eq. unfold truthy_str.
    destruct (name a) as [n|]; simpl; [|done]. by destruct (String.eqb n "").
  - unfold activity_item; cbv zeta. rewrite !set_if_lookup_ne by done.
    rewrite Hne. by simplify_map_eq.
  - unfold activity_item; cbv zeta. rewrite !set_if_lookup_ne by done.
    rewrite Hne. by simplify_map_eq.
  - unfold activity_item; cbv zeta. rewrite !set_if_lookup_ne by done.
    rewrite set_if_lookup, Hne.
    destruct (distance a) as [q|]; simpl; [|by simplify_map_eq].
    destruct (negb (Qeq_bool q 0)); simpl; by simplify_map_eq.
  - unfold activity_item; cbv zeta. rewrite !set_if_lookup_ne by done.
    rewrite set_if_lookup, set_if_lookup_ne by done. rewrite Hne.
    destruct (moving_time a) as [z|]; simpl; [|by simplify_map_eq].
    destruct (negb (z =? 0)); simpl; by simplify_map_eq.
  - unfold activity_item; cbv zeta. rewrite !set_if_lookup_ne by done.
    rewrite set_if_lookup, !set_if_lookup_ne by done. rewrite Hne.
    destruct (icu_training_load a) as [z|]; simpl; [|by simplify_map_eq].
    destruct (negb (z =? 0)); simpl; by simplify_map_eq.
  - intros performance. unfold activity_item; cbv zeta.
    rewrite set_if_lookup, !set_if_lookup_ne by done. rewrite Hne.
    assert (Hbase : ({[ "id" := VStr (id a);
                        "name" := VStr (if truthy_str (name a)
                                        then default "" (name a) else "Untitled");
                        "type" := of_opt VStr (type a);
                        "start_date" := VStr (start_date_local a) ]} : dict)
                    !! "performance" = None) by by simplify_map_eq.
    rewrite Hbase. clear Hbase.
    set (metrics := set_if (truthy_num (average_heartrate a)) "average_heartrate"
                      (of_opt VNum (average_heartrate a))
                      (set_if (truthy_num (average_watts a)) "average_watts"
                         (of_opt VNum (average_watts a)) ∅)).
    assert (Hw : metrics !! "average_watts"
                 = (if truthy_num (average_watts a)
                    then VNum <$> average_watts a else None)).
    { unfold metrics. rewrite set_if_lookup_ne by done. rewrite set_if_lookup.
      destruct (average_watts a) as [w|]; simpl; [|done].
      by destruct (negb (Qeq_bool w 0)). }
    assert (Hh : metrics !! "average_heartrate"
                 = (if truthy_num (average_heartrate a)
                    then VNum <$> average_heartrate a else None)).
    { unfold metrics. rewrite set_if_lookup.
      destruct (average_heartrate a) as [h|]; simpl.
      - destruct (negb (Qeq_bool h 0)); simpl; [done|].
        rewrite set_if_lookup_ne by done. done.
      - rewrite set_if_lookup_ne by done. done. }
    assert (Hother : ∀ k, k ≠ "average_watts" → k ≠ "average_heartrate" →
                       metrics !! k = None).
    { intros k ? ?. unfold metrics. by rewrite !set_if_lookup_ne by done. }
    assert (Hempty : dict_empty metrics
                     = negb (truthy_num (average_watts a)
                             || truthy_num (average_heartrate a))).
    { unfold metrics.
      destruct (truthy_num (average_watts a)), (truthy_num (average_heartrate a));
        unfold set_if; rewrite ?dict_empty_insert; done. }
    rewrite Hempty, negb_involutive, andb_true_r.
    split.
    + destruct (truthy_num (average_watts a) || truthy_num (average_heartrate a))
        eqn:E; [|done].
      intros [= <-]. split; [by apply orb_true_iff|]. by exists metrics.
    + intros (Hor & metrics' & -> & Hw' & Hh' & Hother').
      apply orb_true_iff in Hor. rewrite Hor. do 2 f_equal.
      apply map_eq. intros k.
      destruct (decide (k = "average_watts")) as [-> | ?]; [by rewrite Hw, Hw'|].
      destruct (decide (k = "average_heartrate")) as [-> | ?]; [by rewrite Hh, Hh'|].
      by rewrite Hother, Hother'.
  - intros k Hk. rewrite !not_elem_of_cons in Hk.
    destruct Hk as (? & ? & ? & ? & ? & ? & ? & ? & _).
    unfold activity_item; cbv zeta. rewrite !set_if_lookup_ne by done.
    rewrite Hne. by simplify_map_eq.
Qed.

(** C7: when no entry of a non-empty activity list has the reference id,
    [get_activities_around] succeeds: it returns a success envelope that
    lists every activity, in ascending order of the dates, as its entry
    with the identity and the metrics of the activity and none of
    [position], [days_before], [days_after] and [is_reference]; the data
    carries the count of the activities and no reference counts. *)
Theorem no_reference_no_annotation
    (remote : string → Z → exn + list Activity)
    (activity_id : string) (count : Z) (config : ICUConfig)
    (activities : list Activity) :
  (0 < length activities)%nat →
  activity_id ∉ id <$> activities →
  remote activity_id count = inr activities →
  succeeded (get_activities_around remote activity_id count (Some config))
    (build_response (VDict (result_data activity_id activities)) None None
       (Some "activities_around")) ∧
  all_emitted_unannotated activity_id activities.
Proof.
  intros Hlen Hnot Hremote.
  assert (Hnone : find_ref_index activity_id (sorted_activities activities) = None).
  { apply ActivitiesFacts.find_ref_index_None.
    by rewrite (ActivitiesFacts.sorted_activities_perm activities). }
  assert (Hother : ∀ i a, sorted_activities activities !! i = Some a →
                     id a ≠ activity_id).
  { intros i a Ha Hid. apply Hnot.
    rewrite <- (ActivitiesFacts.sorted_activities_perm activities).
    apply list_elem_of_fmap. exists a. split; [done|].
    by eapply list_elem_of_lookup_2. }
  split.
  - rewrite (get_activities_around_fetched _ _ _ _ _ Hremote).
    destruct activities as [|a l]; [simpl in Hlen; lia|].
    unfold succeeded, returned, raised, around_response; simpl.
    split_and!; [done | done | | by simplify_map_eq].
    eexists. by simplify_map_eq.
  - unfold all_emitted_unannotated. split_and!.
    + apply ActivitiesFacts.sorted_activities_perm.
    + apply ActivitiesFacts.sorted_activities_sorted.
    + apply ActivitiesFacts.activities_data_length.
    + intros i a Ha. exists (activity_item activity_id None i a). split.
      * unfold activities_data. by rewrite Hnone, list_lookup_imap, Ha.
      * apply item_plain. by eapply Hother.
    + intros item (i & a & -> & Ha)%elem_of_lookup_imap. rewrite Hnone.
      apply ActivitiesFacts.item_unannotated. by eapply Hother.
    + unfold result_data. rewrite Hnone. by simplify_map_eq.
    + unfold result_data. rewrite Hnone. simplify_map_eq.
      by rewrite ActivitiesFacts.activities_data_length.
    + unfold result_data. rewrite Hnone. by simplify_map_eq.
    + unfold result_data. rewrite Hnone. by simplify_map_eq.
    + unfold result_data. rewrite Hnone. by simplify_map_eq.
    + unfold result_data. rewrite Hnone. by simplify_map_eq.
Qed.

End ToolFacts.

(** ** Exceptions at the tool boundary *)

Module BoundaryFacts.

Lemma get_hr_curves_ends rt remote days_back time_period config :
  returns_or_propagates
    (Curves.get_hr_curves rt remote days_back time_period (Some config)).
Proof.
  unfold Curves.get_hr_curves. rewrite get_config_Some.
  apply tool_try_returns_or_propagates.
Qed.

Lemma get_wellness_data_ends rt today remote days_back config :
  returns_or_propagates
    (Wellness.get_wellness_data rt today remote days_back (Some config)).
Proof.
  unfold Wellness.get_wellness_data. rewrite get_config_Some.
  apply tool_try_returns_or_propagates.
Qed.

Lemma get_activities_around_ends remote activity_id count config :
  returns_or_propagates
    (Activities.get_activities_around remote activity_id count (Some config)).
Proof.
  unfold Activities.get_activities_around. rewrite get_config_Some.
  apply tool_try_returns_or_propagates.
Qed.

Lemma update_wellness_ends rt remote date u config :
  returns_or_propagates
    (Wellness.update_wellness rt remote date u (Some config)).
Proof.
  unfold Wellness.update_wellness. rewrite get_config_Some.
  destruct (strptime_ok rt date); simpl;
    [apply tool_try_returns_or_propagates | left; by eexists].
Qed.

Lemma update_gear_ends remote gear_id u config :
  returns_or_propagates (Gear.update_gear remote gear_id u (Some config)).
Proof.
  unfold Gear.update_gear. rewrite get_config_Some.
  apply tool_try_returns_or_propagates.
Qed.

(** C8, as the code has it.  In [get_hr_curves], [get_wellness_data],
    [get_activities_around], [update_wellness] and [update_gear], every
    exception raised inside the [try] block that is an instance of
    [Exception] is converted to an envelope: an API error to an
    "api_error" envelope carrying its message unchanged, any other one to
    an envelope of the tool's catch-all kind, "internal_error" in general
    and "unexpected_error" in the gear tools.  An exception that is not an
    [Exception] (asyncio.CancelledError, KeyboardInterrupt, SystemExit) is
    caught by neither clause and leaves the tool.  A tool called with a
    context therefore returns an envelope or propagates such an exception;
    the assertion on the context precedes the [try] block, and a call
    without a context raises AssertionError. *)
Theorem exceptions_become_envelopes :
  (∀ suggestions catch_all (body : tool Envelope),
     trace (tool_try suggestions catch_all body) = trace body ∧
     returns_or_propagates (tool_try suggestions catch_all body)) ∧
  (∀ suggestions t e,
     handles "internal_error" (tool_try suggestions internal_error (t, inl e)) e) ∧
  (∀ suggestions t e,
     handles "unexpected_error" (tool_try suggestions unexpected_error (t, inl e)) e) ∧
  (∀ rt remote days_back time_period config,
     returns_or_propagates
       (Curves.get_hr_curves rt remote days_back time_period (Some config))) ∧
  (∀ rt today remote days_back config,
     returns_or_propagates
       (Wellness.get_wellness_data rt today remote days_back (Some config))) ∧
  (∀ remote activity_id count config,
     returns_or_propagates
       (Activities.get_activities_around remote activity_id count (Some config))) ∧
  (∀ rt remote date u config,
     returns_or_propagates
       (Wellness.update_wellness rt remote date u (Some config))) ∧
  (∀ remote gear_id u config,
     returns_or_propagates (Gear.update_gear remote gear_id u (Some config))) ∧
  (∀ e lower oldest ok days_back config,
     handles "internal_error"
       (Curves.get_hr_curves
          {| str_lower := lower; days_ago := λ _, inr oldest; strptime_ok := ok |}
          (λ _, inl e) days_back None (Some config)) e) ∧
  (∀ e lower ok remote days_back config,
     handles "internal_error"
       (Curves.get_hr_curves
          {| str_lower := lower; days_ago := λ _, inl e; strptime_ok := ok |}
          remote days_back None (Some config)) e) ∧
  (∀ e lower oldest ok newest days_back config,
     handles "internal_error"
       (Wellness.get_wellness_data
          {| str_lower := lower; days_ago := λ _, inr oldest; strptime_ok := ok |}
          (inr newest) (λ _ _, inl e) days_back (Some config)) e) ∧
  (∀ e lower ok today remote days_back config,
     handles "internal_error"
       (Wellness.get_wellness_data
          {| str_lower := lower; days_ago := λ _, inl e; strptime_ok := ok |}
          today remote days_back (Some config)) e) ∧
  (∀ e activity_id count config,
     handles "internal_error"
       (Activities.get_activities_around (λ _ _, inl e) activity_id count
          (Some config)) e) ∧
  (∀ e lower ago date w config,
     handles "internal_error"
       (Wellness.update_wellness
          {| str_lower := lower; days_ago := ago; strptime_ok := λ _, true |}
          (λ _, inl e) date (Wellness.weighed w) (Some config)) e) ∧
  (∀ e gear_id n config,
     handles "unexpected_error"
       (Gear.update_gear (λ _ _, inl e) gear_id (Gear.renamed n) (Some config)) e) ∧
  (∀ rt remote days_back time_period,
     escapes (Curves.get_hr_curves rt remote days_back time_period None)
       AssertionError) ∧
  (∀ rt today remote days_back,
     escapes (Wellness.get_wellness_data rt today remote days_back None)
       AssertionError) ∧
  (∀ remote activity_id count,
     escapes (Activities.get_activities_around remote activity_id count None)
       AssertionError) ∧
  (∀ rt remote date u,
     escapes (Wellness.update_wellness rt remote date u None) AssertionError) ∧
  (∀ remote gear_id u,
     escapes (Gear.update_gear remote gear_id u None) AssertionError).
Proof.
  split_and!; try done.
  - intros. split; [apply tool_try_trace | apply tool_try_returns_or_propagates].
  - intros. apply tool_try_handles. intros e'. apply internal_error_envelope.
  - intros. apply tool_try_handles. intros e'. apply unexpected_error_envelope.
  - apply get_hr_curves_ends.
  - apply get_wellness_data_ends.
  - apply get_activities_around_ends.
  - apply update_wellness_ends.
  - apply update_gear_ends.
  - intros. unfold Curves.get_hr_curves. rewrite get_config_Some.
    destruct days_back; apply tool_try_handles; intros e';
      apply internal_error_envelope.
  - intros. unfold Curves.get_hr_curves. rewrite get_config_Some.
    destruct days_back; apply tool_try_handles; intros e';
      apply internal_error_envelope.
  - intros. unfold Wellness.get_wellness_data. rewrite get_config_Some.
    apply tool_try_handles. intros e'. apply internal_error_envelope.
  - intros. unfold Wellness.get_wellness_data. rewrite get_config_Some.
    apply tool_try_handles. intros e'. apply internal_error_envelope.
  - intros. unfold Activities.get_activities_around. rewrite get_config_Some.
    apply tool_try_handles. intros e'. apply internal_error_envelope.
  - intros. unfold Wellness.update_wellness. rewrite get_config_Some. simpl.
    apply tool_try_handles. intros e'. apply internal_error_envelope.
  - intros. unfold Gear.update_gear. rewrite get_config_Some.
    apply tool_try_handles. intros e'. apply unexpected_error_envelope.
Qed.

(** C8, as stated, fails in three ways: the catch-all of the gear tools
    answers "unexpected_error", not "internal_error"; a cancellation raised
    at the request of [get_activities_around], called with a context, is
    not converted and leaves the tool; and a call without a context raises
    instead of returning. *)
Lemma exceptions_not_all_converted :
  ¬ converts_as_stated
      (Gear.update_gear (λ _ _, inl (OtherError "timeout")) "b1"
         (Gear.renamed "Race bike") (Some sample_config))
      (OtherError "timeout") ∧
  trace (Activities.get_activities_around
           (λ _ _, inl (BaseExceptionOnly "CancelledError")) "a1" 5
           (Some sample_config))
    = [ClientConstructed; Request "get_activities_around"] ∧
  escapes
    (Activities.get_activities_around
       (λ _ _, inl (BaseExceptionOnly "CancelledError")) "a1" 5
       (Some sample_config))
    (BaseExceptionOnly "CancelledError") ∧
  ¬ converts_as_stated
      (Activities.get_activities_around
         (λ _ _, inl (BaseExceptionOnly "CancelledError")) "a1" 5
         (Some sample_config))
      (BaseExceptionOnly "CancelledError") ∧
  returned (Gear.update_gear (λ _ _, inl (OtherError "timeout")) "b1"
              (Gear.renamed "Race bike") None) = None ∧
  raised (Gear.update_gear (λ _ _, inl (OtherError "timeout")) "b1"
            (Gear.renamed "Race bike") None) = Some AssertionError.
Proof.
  split_and!; [| done | done | | done | done].
  - intros (envelope & Hret & Hkind & _).
    vm_compute in Hret. injection Hret as <-.
    vm_compute in Hkind. discriminate.
  - intros (envelope & Hret & _). vm_compute in Hret. discriminate.
Qed.

End BoundaryFacts.

(** ** Validation before the API call *)

Lemma build_response_other data analysis metadata query_type k :
  k ≠ "data" → k ≠ "analysis" → k ≠ "metadata" → k ≠ "query_type" →
  build_response data analysis metadata query_type !! k = None.
Proof.
  intros. unfold build_response. rewrite set_some_lookup_ne by done.
  destruct metadata; [rewrite set_if_lookup_ne by done|];
    (destruct analysis; [rewrite set_if_lookup_ne by done|]); by simplify_map_eq.
Qed.

Lemma validation_response message :
  error_envelope "validation_error"
    (build_error_response message "validation_error" None).
Proof. apply error_response_envelope. Qed.

Module ValidationFacts.
Import Curves.

Lemma resolve_period_invalid rt tp :
  tp ≠ "" → str_lower rt tp ∉ ["week"; "month"; "year"; "all"] →
  resolve_period rt None (Some tp)
  = mret (inl (build_error_response
                 "Invalid time_period. Use 'week', 'month', 'year', or 'all'"
                 "validation_error" None)).
Proof.
  intros Hne Hnot. unfold resolve_period, truthy_str.
  apply String.eqb_neq in Hne. rewrite Hne. simpl.
  rewrite !not_elem_of_cons in Hnot. destruct Hnot as (H1 & H2 & H3 & H4 & _).
  assert (period_map !! str_lower rt tp = None) as ->.
  { unfold period_map. by rewrite !lookup_insert_ne, lookup_singleton_ne. }
  apply String.eqb_neq in H4. by rewrite H4.
Qed.

Lemma hr_curves_response_not_validation period_label data :
  hr_curves_response period_label data !! "error_type" = None.
Proof.
  unfold hr_curves_response. destruct data; by apply build_response_other.
Qed.

(** C9, as the code has it: a date that [strptime] rejects and an
    [update_wellness] call with no field are answered with a
    "validation_error" envelope before the API client is constructed; so is
    a non-empty [time_period] outside week, month, year and all when
    [days_back] is not given.  [update_gear] with no field is answered with
    a "validation_error" envelope after the client is constructed and
    before any request.  When [days_back] is given, [time_period] is not
    looked at and the request is sent. *)
Theorem validation_errors_precede_requests
    (rt : Runtime) (remote_w : dict → exn + Wellness.Wellness)
    (remote_c : option string → exn + list (CurvePoint Z))
    (remote_g : string → dict → exn + Gear.Gear)
    (bad_date good_date : string) (u : Wellness.Update)
    (time_period : string) (d : Z) (oldest gear_id : string)
    (config : ICUConfig) :
  strptime_ok rt bad_date = false →
  strptime_ok rt good_date = true →
  time_period ≠ "" →
  str_lower rt time_period ∉ ["week"; "month"; "year"; "all"] →
  days_ago rt d = inr oldest →
  rejected_before_client
    (Wellness.update_wellness rt remote_w bad_date u (Some config)) ∧
  rejected_before_client
    (Wellness.update_wellness rt remote_w good_date Wellness.nothing
       (Some config)) ∧
  rejected_before_client
    (get_hr_curves rt remote_c None (Some time_period) (Some config)) ∧
  rejected_before_request
    (Gear.update_gear remote_g gear_id Gear.no_fields (Some config)) ∧
  trace (Gear.update_gear remote_g gear_id Gear.no_fields (Some config))
    = [ClientConstructed] ∧
  trace (get_hr_curves rt remote_c (Some d) (Some time_period) (Some config))
    = [ClientConstructed; Request "get_hr_curves"] ∧
  ¬ validation_rejected
      (get_hr_curves rt remote_c (Some d) (Some time_period) (Some config)).
Proof.
  intros Hbad Hgood Hne Hnot Hago.
  assert (Hgear : Gear.update_gear remote_g gear_id Gear.no_fields (Some config)
                  = ([ClientConstructed],
                     inr (build_error_response "No fields provided to update"
                            "validation_error" None))) by done.
  split_and!.
  - unfold Wellness.update_wellness. rewrite get_config_Some, Hbad. simpl.
    split; [done|]. eexists. split; [done|]. apply validation_response.
  - unfold Wellness.update_wellness. rewrite get_config_Some, Hgood.
    split; [done|]. eexists. split; [done|]. apply validation_response.
  - unfold get_hr_curves. rewrite get_config_Some.
    rewrite resolve_period_invalid, bind_ret by done.
    split; [done|]. eexists. split; [done|]. apply validation_response.
  - rewrite Hgear. split.
    + intros endpoint. unfold trace; simpl. set_solver.
    + eexists. split; [done|]. apply validation_response.
  - by rewrite Hgear.
  - unfold get_hr_curves. rewrite get_config_Some.
    rewrite tool_try_trace.
    unfold resolve_period. rewrite Hago. simpl.
    by destruct (remote_c (Some oldest)).
  - intros (envelope & Hret & Hkind & _).
    unfold get_hr_curves in Hret. rewrite get_config_Some in Hret.
    unfold resolve_period in Hret. rewrite Hago in Hret. simpl in Hret.
    unfold returned in Hret.
    destruct (remote_c (Some oldest)) as [e|data]; simpl in Hret.
    + destruct e; try discriminate; injection Hret as <-; by vm_compute in Hkind.
    + injection Hret as <-.
      by rewrite (hr_curves_response_not_validation _ data) in Hkind.
Qed.

(** C9, as stated, fails: an invalid [time_period] next to [days_back] is
    not rejected and the request is sent, and [update_gear] constructs the
    client before it rejects a call with no field. *)
Lemma invalid_period_not_rejected_with_days_back :
  (str_lower sample_runtime "fortnight" ∉ ["week"; "month"; "year"; "all"]) ∧
  (¬ rejected_before_client
       (get_hr_curves sample_runtime (λ _, inr sample_hr) (Some 7)
          (Some "fortnight") (Some sample_config))) ∧
  (¬ rejected_before_client
       (Gear.update_gear (λ _ _, inl (OtherError "unreachable")) "b1"
          Gear.no_fields (Some sample_config))).
Proof.
  split_and!.
  - vm_compute. set_solver.
  - intros [Htrace _]. vm_compute in Htrace. discriminate.
  - intros [Htrace _]. vm_compute in Htrace. discriminate.
Qed.

End ValidationFacts.

(** ** Training load in the wellness tools *)

Lemma truthy_num_Some (q : Q) : truthy_num (Some q) = true ↔ ¬ (q == 0)%Q.
Proof.
  unfold truthy_num. rewrite negb_true_iff, <- not_true_iff_false.
  by rewrite Qeq_bool_iff.
Qed.

Module WellnessFacts.
Import Wellness.

Lemma set_rounded_lookup_eq x k n (d : dict) :
  set_rounded x k n d !! k
  = if truthy_num x then (λ q, VNum (py_round q n)) <$> x else d !! k.
Proof.
  unfold set_rounded. destruct x as [q|]; [|done].
  rewrite set_if_lookup. rewrite bool_decide_eq_true_2 by done.
  rewrite andb_true_r. by destruct (truthy_num (Some q)).
Qed.

Lemma set_rounded_lookup_ne x k n (d : dict) k' :
  k ≠ k' → set_rounded x k n d !! k' = d !! k'.
Proof.
  intros. unfold set_rounded. destruct x; [by apply set_if_lookup_ne | done].
Qed.

Ltac training_lookup :=
  rewrite ?set_rounded_lookup_eq, ?set_rounded_lookup_ne by done;
  rewrite ?set_rounded_lookup_eq, ?set_rounded_lookup_ne by done;
  rewrite ?lookup_empty.

Lemma field_included (x : option Q) :
  (is_Some (if truthy_num x
            then (λ q, VNum (py_round q 1)) <$> x else None)
   ↔ truthy_num x = true) ∧
  (∀ v, (if truthy_num x then (λ q, VNum (py_round q 1)) <$> x else None)
        = Some v → ∃ q, x = Some q ∧ v = VNum (py_round q 1)).
Proof.
  destruct x as [q|]; simpl; [|split; [by split; [intros [??]|] | done]].
  destruct (negb (Qeq_bool q 0)); simpl.
  - split; [by split; [|eexists] | intros v [= <-]; eauto].
  - split; [by split; [intros [??]|] | done].
Qed.

Lemma data_training_fields record :
  included_iff_truthy data_training daily_training_fields record.
Proof.
  intros k get Hin. unfold daily_training_fields in Hin.
  repeat (apply elem_of_cons in Hin as [[= -> ->] | Hin]);
    [| | | by apply elem_of_nil in Hin];
    unfold data_training; training_lookup; apply field_included.
Qed.

Lemma for_date_training_fields record :
  included_iff_truthy for_date_training training_fields record.
Proof.
  intros k get Hin. unfold training_fields in Hin.
  repeat (apply elem_of_cons in Hin as [[= -> ->] | Hin]);
    [| | | | by apply elem_of_nil in Hin];
    unfold for_date_training; training_lookup; apply field_included.
Qed.

(** C10, as the code has it: [ctl], [atl] and [tsb] are in the training
    section of [get_wellness_data], and [ctl], [atl], [tsb] and [ramp_rate]
    in that of [get_wellness_for_date], if and only if the upstream value
    is truthy; [get_wellness_data] never writes [ramp_rate].  A value of
    exactly 0 is omitted like an absent one, so a TSB of zero does not
    appear; and the section itself is present only when it has a key. *)
Theorem training_load_fields_when_truthy (record : Wellness) (enclosing : dict) :
  included_iff_truthy data_training daily_training_fields record ∧
  data_training record !! "ramp_rate" = None ∧
  included_iff_truthy for_date_training training_fields record ∧
  (∀ q, truthy_num (Some q) = true ↔ ¬ (q == 0)%Q) ∧
  truthy_num None = false ∧
  data_training (with_tsb (Some 0%Q) record) !! "tsb" = None ∧
  for_date_training (with_tsb (Some 0%Q) record) !! "tsb" = None ∧
  data_training (with_tsb None record) !! "tsb" = None ∧
  for_date_training (with_tsb None record) !! "tsb" = None ∧
  data_training_block record enclosing !! "training"
    = (if dict_empty (data_training record) then enclosing !! "training"
       else Some (VDict (data_training record))) ∧
  for_date_training_block record enclosing !! "training"
    = (if dict_empty (for_date_training record) then enclosing !! "training"
       else Some (VDict (for_date_training record))).
Proof.
  split_and!.
  - apply data_training_fields.
  - unfold data_training. by training_lookup.
  - apply for_date_training_fields.
  - apply truthy_num_Some.
  - done.
  - unfold data_training. by training_lookup.
  - unfold for_date_training. by training_lookup.
  - unfold data_training. by training_lookup.
  - unfold for_date_training. by training_lookup.
  - unfold data_training_block. rewrite set_if_lookup.
    rewrite bool_decide_eq_true_2 by done. rewrite andb_true_r.
    by destruct (dict_empty _).
  - unfold for_date_training_block. rewrite set_if_lookup.
    rewrite bool_decide_eq_true_2 by done. rewrite andb_true_r.
    by destruct (dict_empty _).
Qed.

(** C10, as stated, fails for [ramp_rate] in [get_wellness_data]: a truthy
    ramp rate is not written to the training section of that tool. *)
Lemma daily_training_omits_ramp_rate :
  ¬ included_iff_truthy data_training training_fields
      (day "2024-03-01" (Some 52%Q) (Some 61%Q) (Some (-9)%Q) (Some 3%Q)).
Proof.
  intros H. destruct (H "ramp_rate" ramp_rate) as [[_ Hin] _]; [set_solver|].
  destruct Hin as [v Hv]; [done|]. vm_compute in Hv. discriminate.
Qed.

End WellnessFacts.

(* ===================================================================== *)
(** * Worked inputs *)
(* ===================================================================== *)

Module Worked.
Import Curves.

(** The curve with points at 58 s and 65 s: the target 60 s selects the
    point at 58 s (distance 2, within the tolerance 6). *)
Example closest_of_58_65 :
  closest_point sample_power 60 = Some (point 58 410) ∧
  power_peak_efforts sample_power !! "1_min"
    = Some (VDict (power_effort (point 58 410))) ∧
  power_peak_efforts sample_power !! "5_min" = None.
Proof. split_and!; by vm_compute. Qed.

(** The curve with one point at 40 s: the target 60 s has no match
    (distance 20 exceeds the tolerance 6), and the label is absent. *)
Example no_match_for_40 :
  closest_point sample_hr 60 = Some (point 40 181) ∧
  hr_peak_efforts sample_hr !! "1_min" = None ∧
  hr_peak_efforts sample_hr = ∅.
Proof. split_and!; by vm_compute. Qed.

(** Two points at the same distance from the target: the first one in the
    order of the curve is selected. *)
Example tie_takes_first :
  closest_point sample_pace 60 = Some (point 62 (9 # 2)) ∧
  pace_peak_efforts sample_pace !! "400m_equivalent"
    = Some (VDict (pace_effort (point 62 (9 # 2)))) ∧
  pace_effort (point 62 (9 # 2)) !! "pace_formatted" = Some (VStr "4:30 /km").
Proof. split_and!; by vm_compute. Qed.

(** Three activities on three days, the reference on the second. *)
Example around_second_day :
  (Activities.id <$> Activities.sorted_activities Activities.three_days)
    = ["a1"; "a2"; "a3"] ∧
  Activities.find_ref_index "a2"
    (Activities.sorted_activities Activities.three_days) = Some 1%nat ∧
  Activities.result_data "a2" Activities.three_days !! "activities_before"
    = Some (VInt 1) ∧
  Activities.result_data "a2" Activities.three_days !! "activities_after"
    = Some (VInt 1) ∧
  Activities.result_data "a2" Activities.three_days !! "reference_position"
    = Some (VInt 1) ∧
  (λ item : dict, (item !! "position", item !! "days_before",
                   item !! "days_after", item !! "is_reference"))
    <$> Activities.activities_data "a2" Activities.three_days
  = [(Some (VStr "before"), Some (VInt 1), None, None);
     (None, None, None, Some (VBool true));
     (Some (VStr "after"), None, Some (VInt 1), None)].
Proof. split_and!; by vm_compute. Qed.

(** Numbers in an f-string: plain, and padded to two digits.  The doubles
    nearest to 9 minutes 59 seconds and to 10 minutes 10 seconds lie below
    them, and so do their products: they are written a second short. *)
Example formatted_numbers :
  fmt_d 0 = "0" ∧ fmt_d 4 = "4" ∧ fmt_d 12 = "12" ∧ fmt_d (-3) = "-3" ∧
  fmt_02d 0 = "00" ∧ fmt_02d 7 = "07" ∧ fmt_02d 30 = "30" ∧ fmt_02d 59 = "59" ∧
  pace_formatted (float_of_int 5) = "5:00 /km" ∧
  pace_formatted (float_lit (22 # 5)) = "4:24 /km" ∧
  pace_formatted (float_lit (599 # 60)) = "9:58 /km" ∧
  pace_formatted (float_lit (61 # 6)) = "10:09 /km".
Proof. split_and!; by vm_compute. Qed.

(** Float arithmetic as the machine does it: the literal [0.7] is the
    double below seven tenths, [170 * 0.7] is below 119, [0.1 * 3] is
    above three tenths, and [1015.0 / 1000] is below 1.015 and rounds to
    1.01. *)
Example float_arithmetic :
  (float_lit (7 # 10) < 7 # 10)%Q ∧
  py_int (fmul (float_of_int 170) (float_lit (7 # 10))) = 118 ∧
  (3 # 10 < fmul (float_lit (1 # 10)) (float_of_int 3))%Q ∧
  (py_round (fdiv (float_of_int 1015) (float_of_int 1000)) 2 == 101 # 100)%Q ∧
  is_float (float_lit (1 # 3)) = true ∧
  is_float (1 # 3) = false ∧
  (float_lit (1 # 3) == 6004799503160661 # 18014398509481984)%Q.
Proof. split_and!; by vm_compute. Qed.

(** The witnesses of the theorems above, at these inputs. *)

Lemma peak_efforts_nearest_within_tolerance_witness :
  (0 < length sample_power)%nat ∧
  (0 < length sample_hr)%nat ∧
  (0 < length sample_pace)%nat ∧
  (matcher_spec power_effort key_durations_power sample_power ∧
   matcher_spec hr_effort key_durations_hr sample_hr ∧
   matcher_spec pace_effort key_durations_pace sample_pace).
Proof.
  split; [simpl; lia|]. split; [simpl; lia|]. split; [simpl; lia|].
  apply (CurvesFacts.peak_efforts_nearest_within_tolerance
           sample_power sample_hr sample_pace); simpl; lia.
Defined.

Lemma pace_bounds_truncated_witness :
  is_float (Histogram.min Histogram.sample_bin) = true ∧
  is_float (Histogram.max Histogram.sample_bin) = true ∧
  (0 <= Histogram.min Histogram.sample_bin)%Q ∧
  (0 <= Histogram.max Histogram.sample_bin)%Q ∧
  Histogram.bounds_as_computed Histogram.sample_bin.
Proof.
  split; [reflexivity|]. split; [reflexivity|].
  split; [by vm_compute|]. split; [by vm_compute|].
  apply (HistogramFacts.pace_bounds_truncated Histogram.sample_bin);
    [reflexivity | reflexivity | by vm_compute | by vm_compute].
Defined.

Lemma positions_relative_to_reference_witness :
  Activities.one_reference_entry "a2" Activities.three_days ∧
  Activities.positioned_as_stated "a2" Activities.three_days.
Proof.
  split; [reflexivity|].
  apply (ActivitiesFacts.positions_relative_to_reference "a2" Activities.three_days).
  reflexivity.
Defined.

Lemma no_reference_no_annotation_witness :
  (0 < length Activities.three_days)%nat ∧
  ("zz" ∉ Activities.id <$> Activities.three_days) ∧
  (λ _ _, inr Activities.three_days : exn + list Activities.Activity) "zz" 1
    = inr Activities.three_days ∧
  succeeded
    (Activities.get_activities_around (λ _ _, inr Activities.three_days) "zz" 1
       (Some sample_config))
    (build_response (VDict (Activities.result_data "zz" Activities.three_days))
       None None (Some "activities_around")) ∧
  Activities.all_emitted_unannotated "zz" Activities.three_days.
Proof.
  split; [simpl; lia|]. split; [by apply (bool_decide_unpack _)|].
  split; [reflexivity|].
  apply (ToolFacts.no_reference_no_annotation
           (λ _ _, inr Activities.three_days) "zz" 1 sample_config
           Activities.three_days);
    [simpl; lia | by apply (bool_decide_unpack _) | reflexivity].
Defined.

Lemma validation_errors_precede_requests_witness :
  strptime_ok sample_runtime "01/03/2024" = false ∧
  strptime_ok sample_runtime "2024-03-01" = true ∧
  "fortnight" ≠ "" ∧
  (str_lower sample_runtime "fortnight" ∉ ["week"; "month"; "year"; "all"]) ∧
  days_ago sample_runtime 7 = inr "2024-02-23" ∧
  rejected_before_client
    (Wellness.update_wellness sample_runtime
       (λ _, inl (OtherError "unreachable")) "01/03/2024" Wellness.nothing
       (Some sample_config)) ∧
  rejected_before_client
    (get_hr_curves sample_runtime (λ _, inr sample_hr) None
       (Some "fortnight") (Some sample_config)).
Proof.
  split; [reflexivity|]. split; [reflexivity|].
  split; [by apply (bool_decide_unpack _)|].
  split; [by apply (bool_decide_unpack _)|].
  split; [reflexivity|].
  destruct (ValidationFacts.validation_errors_precede_requests
              sample_runtime (λ _, inl (OtherError "unreachable"))
              (λ _, inr sample_hr)
              (λ _ _, inl (OtherError "unreachable"))
              "01/03/2024" "2024-03-01" Wellness.nothing "fortnight" 7
              "2024-02-23" "b1" sample_config)
    as (H1 & _ & H3 & _);
    [reflexivity | reflexivity | by apply (bool_decide_unpack _)
    | by apply (bool_decide_unpack _) | reflexivity |].
  split; [exact H1 | exact H3].
Defined.

End Worked.
